(** * Subaru legacy (pre-global) safety hooks

    A shallow embedding of [board/safety/safety_subaru_legacy.h]: the receive
    hook, the transmit hook with its steering-torque limiter, the forwarding
    hook and the initialiser, followed by the properties the specification
    states about them.

    C [int] and [uint32_t] values are carried as [Z]; every arithmetic
    expression of the file stays far inside the 32-bit range (torques are
    at most 13 bits wide), apart from the timer difference, whose wrap-around
    is written out.  The module's global variables become the fields of
    [State], threaded explicitly through the hooks. *)

From Stdlib Require Import ZArith Bool List Lia.
Import ListNotations.
Local Open Scope Z_scope.

(** ** Constants (lines 1-11 of the source) *)

Definition SUBARU_L_MAX_STEER : Z := 2047.
Definition SUBARU_L_MAX_RT_DELTA : Z := 940.
Definition SUBARU_L_RT_INTERVAL : Z := 250000.
Definition SUBARU_L_MAX_RATE_UP : Z := 50.
Definition SUBARU_L_MAX_RATE_DOWN : Z := 70.
Definition SUBARU_L_DRIVER_TORQUE_ALLOWANCE : Z := 60.
Definition SUBARU_L_DRIVER_TORQUE_FACTOR : Z := 10.
Definition SUBARU_L_STANDSTILL_THRSLD : Z := 20.
Definition SUBARU_L_BRAKE_THRSLD : Z := 2.
Definition SUBARU_L_PARAM_FLIP_DRIVER_TORQUE : Z := 1.

(** ** Frames and tables *)

(** Modelled from the spec: the mailbox type [CAN_FIFOMailBox_TypeDef] is
    declared outside the source file.  The specification describes a frame
    as an address, a bus index, a length and eight payload bytes; the
    payload is kept as the two 32-bit data words the word accessors
    [GET_BYTES_04] and [GET_BYTES_48] return, byte 0 being the least
    significant byte of the low word. *)
Record CAN_FIFOMailBox_TypeDef : Type := mkFrame {
  f_addr : Z;
  f_bus  : Z;
  f_len  : Z;
  RDLR   : Z;   (* payload bytes 0..3 *)
  RDHR   : Z    (* payload bytes 4..7 *)
}.

(** An entry of the transmit allow-list: [{addr, bus, len}]. *)
Record CanMsg : Type := mkCanMsg {
  m_addr : Z;
  m_bus  : Z;
  m_len  : Z
}.

Definition SUBARU_L_TX_MSGS : list CanMsg :=
  [ mkCanMsg 0x161 0 8; mkCanMsg 0x164 0 8; mkCanMsg 0x140 2 8 ].

(** An entry of the receive address-check table. *)
Record AddrCheck : Type := mkAddrCheck {
  ac_addr : Z;
  ac_bus  : Z;
  ac_len  : Z;
  expected_timestep : Z
}.

Definition subaru_l_addr_checks : list AddrCheck :=
  [ mkAddrCheck 0x140 0 8 10000;
    mkAddrCheck 0x371 0 8 20000;
    mkAddrCheck 0x144 0 8 50000 ].

Definition subaru_l_rx_checks : list AddrCheck := subaru_l_addr_checks.

(** ** Frame accessors and numeric primitives *)

Definition uint32_mod : Z := 2 ^ 32.

(** Modelled from the spec: the accessor macros [GET_ADDR], [GET_BUS],
    [GET_LEN], [GET_BYTE], [GET_BYTES_04] and [GET_BYTES_48] are defined
    outside the source file ("frame field accessors over a fixed-size frame
    representation (address, bus index, payload bytes, length)"). *)
Definition GET_ADDR (msg : CAN_FIFOMailBox_TypeDef) : Z := f_addr msg.
Definition GET_BUS (msg : CAN_FIFOMailBox_TypeDef) : Z := f_bus msg.
Definition GET_LEN (msg : CAN_FIFOMailBox_TypeDef) : Z := f_len msg.
Definition GET_BYTES_04 (msg : CAN_FIFOMailBox_TypeDef) : Z :=
  RDLR msg mod uint32_mod.
Definition GET_BYTES_48 (msg : CAN_FIFOMailBox_TypeDef) : Z :=
  RDHR msg mod uint32_mod.
Definition GET_BYTE (msg : CAN_FIFOMailBox_TypeDef) (b : Z) : Z :=
  if 3 <? b
  then Z.land (Z.shiftr (GET_BYTES_48 msg) (8 * (b mod 4))) 0xFF
  else Z.land (Z.shiftr (GET_BYTES_04 msg) (8 * b)) 0xFF.

(** Modelled from the spec: [to_signed] is defined outside the source file;
    it is the "signed conversion" of a [bits]-wide two's-complement field. *)
Definition to_signed (d bits : Z) : Z :=
  if 2 ^ (bits - 1) <=? d then d - 2 ^ bits else d.

(** Modelled from the spec: [max_limit_check] is defined outside the source
    file; the absolute-bound check reports a violation exactly when the
    value does not "lie within [[MIN, MAX]]". *)
Definition max_limit_check (val MAX_VAL MIN_VAL : Z) : bool :=
  (MAX_VAL <? val) || (val <? MIN_VAL).

(** Modelled from the spec: [get_ts_elapsed] is defined outside the source
    file; the microseconds "elapsed since" [ts_last] on the 32-bit
    monotonic clock, the subtraction wrapping around as [uint32_t] does. *)
Definition get_ts_elapsed (ts ts_last : Z) : Z :=
  (ts - ts_last) mod uint32_mod.

(** Modelled from the spec: [msg_allowed] is defined outside the source
    file; a frame passes when it matches one "(address, bus, length)" tuple
    of the allow-list "exactly". *)
Definition msg_allowed (to_send : CAN_FIFOMailBox_TypeDef)
    (msg_list : list CanMsg) : bool :=
  existsb (fun m => (GET_ADDR to_send =? m_addr m)
                    && (GET_BUS to_send =? m_bus m)
                    && (GET_LEN to_send =? m_len m)) msg_list.

(** Modelled from the spec: [GET_FLAG] is defined outside the source file;
    it reads "one configuration bit" of the parameter bitmask. *)
Definition GET_FLAG (value mask : Z) : bool :=
  Z.land value mask =? mask.

(** C truth value of an [int]. *)
Definition truthy (z : Z) : bool := negb (z =? 0).

(** ** External collaborators *)

(** Modelled from the spec: the generic safety layer ([addr_safety_check],
    [generic_rx_checks], [update_sample], [driver_limit_check],
    [rt_rate_limit_check], the relay-malfunction latch and the type
    [struct sample_t]) lives outside the source file.  The specification
    consumes each of them as a black box: the address validator is "a
    black-box validity check" returning a verdict, [generic_rx_checks] feeds
    "a generic liveness tracker (external collaborator)", the relay flag is
    "ambient, externally latched", and the limit checks are "pure functions".
    They are therefore parameters of the development.  [ambient] is the
    state those services own (address-check bookkeeping, liveness tracker,
    relay latch); the interface gives them no access to the module's own
    variables. *)
Class Collaborators (sample_t ambient : Type) : Type := {
  addr_safety_check :
    CAN_FIFOMailBox_TypeDef -> list AddrCheck -> ambient -> bool * ambient;
  generic_rx_checks : bool -> ambient -> ambient;
  relay_malfunction : ambient -> bool;
  relay_malfunction_reset : ambient -> ambient;
  update_sample : sample_t -> Z -> sample_t;
  (* val, val_last, val_driver, MAX_VAL, MAX_RATE_UP, MAX_RATE_DOWN,
     MAX_ALLOWANCE, DRIVER_FACTOR *)
  driver_limit_check : Z -> Z -> sample_t -> Z -> Z -> Z -> Z -> Z -> bool;
  (* val, val_last, MAX_RT_DELTA *)
  rt_rate_limit_check : Z -> Z -> Z -> bool
}.

(** ** Module state *)

Section State.
Context {sample_t ambient : Type}.

(** The global variables the hooks read and write. *)
Record State : Type := mkState {
  torque_driver : sample_t;
  controls_allowed : bool;
  cruise_engaged_prev : bool;
  vehicle_moving : bool;
  brake_pressed : bool;
  gas_pressed : bool;
  desired_torque_last : Z;
  rt_torque_last : Z;
  ts_last : Z;
  subaru_l_flip_driver_torque : bool;
  amb : ambient
}.

Definition set_torque_driver (st : State) (v : sample_t) : State :=
  mkState v (controls_allowed st) (cruise_engaged_prev st)
    (vehicle_moving st) (brake_pressed st) (gas_pressed st)
    (desired_torque_last st) (rt_torque_last st) (ts_last st)
    (subaru_l_flip_driver_torque st) (amb st).

Definition set_controls_allowed (st : State) (v : bool) : State :=
  mkState (torque_driver st) v (cruise_engaged_prev st)
    (vehicle_moving st) (brake_pressed st) (gas_pressed st)
    (desired_torque_last st) (rt_torque_last st) (ts_last st)
    (subaru_l_flip_driver_torque st) (amb st).

Definition set_cruise_engaged_prev (st : State) (v : bool) : State :=
  mkState (torque_driver st) (controls_allowed st) v
    (vehicle_moving st) (brake_pressed st) (gas_pressed st)
    (desired_torque_last st) (rt_torque_last st) (ts_last st)
    (subaru_l_flip_driver_torque st) (amb st).

Definition set_vehicle_moving (st : State) (v : bool) : State :=
  mkState (torque_driver st) (controls_allowed st) (cruise_engaged_prev st)
    v (brake_pressed st) (gas_pressed st)
    (desired_torque_last st) (rt_torque_last st) (ts_last st)
    (subaru_l_flip_driver_torque st) (amb st).

Definition set_brake_pressed (st : State) (v : bool) : State :=
  mkState (torque_driver st) (controls_allowed st) (cruise_engaged_prev st)
    (vehicle_moving st) v (gas_pressed st)
    (desired_torque_last st) (rt_torque_last st) (ts_last st)
    (subaru_l_flip_driver_torque st) (amb st).

Definition set_gas_pressed (st : State) (v : bool) : State :=
  mkState (torque_driver st) (controls_allowed st) (cruise_engaged_prev st)
    (vehicle_moving st) (brake_pressed st) v
    (desired_torque_last st) (rt_torque_last st) (ts_last st)
    (subaru_l_flip_driver_torque st) (amb st).

Definition set_desired_torque_last (st : State) (v : Z) : State :=
  mkState (torque_driver st) (controls_allowed st) (cruise_engaged_prev st)
    (vehicle_moving st) (brake_pressed st) (gas_pressed st)
    v (rt_torque_last st) (ts_last st)
    (subaru_l_flip_driver_torque st) (amb st).

Definition set_rt_torque_last (st : State) (v : Z) : State :=
  mkState (torque_driver st) (controls_allowed st) (cruise_engaged_prev st)
    (vehicle_moving st) (brake_pressed st) (gas_pressed st)
    (desired_torque_last st) v (ts_last st)
    (subaru_l_flip_driver_torque st) (amb st).

Definition set_ts_last (st : State) (v : Z) : State :=
  mkState (torque_driver st) (controls_allowed st) (cruise_engaged_prev st)
    (vehicle_moving st) (brake_pressed st) (gas_pressed st)
    (desired_torque_last st) (rt_torque_last st) v
    (subaru_l_flip_driver_torque st) (amb st).

Definition set_flip_driver_torque (st : State) (v : bool) : State :=
  mkState (torque_driver st) (controls_allowed st) (cruise_engaged_prev st)
    (vehicle_moving st) (brake_pressed st) (gas_pressed st)
    (desired_torque_last st) (rt_torque_last st) (ts_last st)
    v (amb st).

Definition set_amb (st : State) (v : ambient) : State :=
  mkState (torque_driver st) (controls_allowed st) (cruise_engaged_prev st)
    (vehicle_moving st) (brake_pressed st) (gas_pressed st)
    (desired_torque_last st) (rt_torque_last st) (ts_last st)
    (subaru_l_flip_driver_torque st) v.

(** The rate-limiter triple [(desired_torque_last, rt_torque_last,
    ts_last)]. *)
Definition limiter (st : State) : Z * Z * Z :=
  (desired_torque_last st, rt_torque_last st, ts_last st).

(** Two states agree on every variable the module owns (they may differ in
    the ambient services' state). *)
Definition same_module_state (s1 s2 : State) : Prop :=
  torque_driver s1 = torque_driver s2 /\
  controls_allowed s1 = controls_allowed s2 /\
  cruise_engaged_prev s1 = cruise_engaged_prev s2 /\
  vehicle_moving s1 = vehicle_moving s2 /\
  brake_pressed s1 = brake_pressed s2 /\
  gas_pressed s1 = gas_pressed s2 /\
  desired_torque_last s1 = desired_torque_last s2 /\
  rt_torque_last s1 = rt_torque_last s2 /\
  ts_last s1 = ts_last s2 /\
  subaru_l_flip_driver_torque s1 = subaru_l_flip_driver_torque s2.
End State.

Arguments State : clear implicits.

(** ** The hooks *)

Section Hooks.
Context {sample_t ambient : Type} {collab : Collaborators sample_t ambient}.

Local Abbreviation St := (State sample_t ambient).

(** *** Receive hook (lines 31-79) *)

(** Lines 38-46: driver torque, address [0x371]. *)
Definition rx_driver_torque (st : St) (to_push : CAN_FIFOMailBox_TypeDef) : St :=
  let torque_driver_new :=
    Z.shiftr (GET_BYTE to_push 3) 5 + Z.shiftl (GET_BYTE to_push 4) 3 in
  let torque_driver_new := to_signed torque_driver_new 11 in
  let torque_driver_new :=
    if subaru_l_flip_driver_torque st
    then -1 * torque_driver_new
    else torque_driver_new in
  set_torque_driver st (update_sample (torque_driver st) torque_driver_new).

(** Lines 49-58: enter controls on the rising edge of ACC, exit on ACC off. *)
Definition rx_cruise (st : St) (to_push : CAN_FIFOMailBox_TypeDef) : St :=
  let cruise_engaged := Z.land (Z.shiftr (GET_BYTE to_push 6) 1) 1 in
  let st :=
    if truthy cruise_engaged && negb (cruise_engaged_prev st)
    then set_controls_allowed st true
    else st in
  let st :=
    if negb (truthy cruise_engaged)
    then set_controls_allowed st false
    else st in
  set_cruise_engaged_prev st (truthy cruise_engaged).

(** Lines 61-66: wheel speed, averaging opposite corners. *)
Definition rx_wheel_speed (st : St) (to_push : CAN_FIFOMailBox_TypeDef) : St :=
  let subaru_speed := Z.land (Z.shiftr (GET_BYTES_04 to_push) 16) 0xFFFF in
  let subaru_speed := subaru_speed + Z.land (GET_BYTES_48 to_push) 0xFFFF in
  let subaru_speed := Z.quot subaru_speed 2 in
  set_vehicle_moving st (SUBARU_L_STANDSTILL_THRSLD <? subaru_speed).

(** Lines 68-70. *)
Definition rx_brake (st : St) (to_push : CAN_FIFOMailBox_TypeDef) : St :=
  set_brake_pressed st (SUBARU_L_BRAKE_THRSLD <? GET_BYTE to_push 2).

(** Lines 72-74. *)
Definition rx_gas (st : St) (to_push : CAN_FIFOMailBox_TypeDef) : St :=
  set_gas_pressed st (negb (GET_BYTE to_push 0 =? 0)).

Definition subaru_legacy_rx_hook (st : St)
    (to_push : CAN_FIFOMailBox_TypeDef) : bool * St :=
  let '(valid, a) :=
    addr_safety_check to_push subaru_l_rx_checks (amb st) in
  let st := set_amb st a in
  if valid && (GET_BUS to_push =? 0) then
    let addr := GET_ADDR to_push in
    let st := if addr =? 0x371 then rx_driver_torque st to_push else st in
    let st := if addr =? 0x144 then rx_cruise st to_push else st in
    let st := if addr =? 0xD4 then rx_wheel_speed st to_push else st in
    let st := if addr =? 0xD1 then rx_brake st to_push else st in
    let st := if addr =? 0x140 then rx_gas st to_push else st in
    let st := set_amb st (generic_rx_checks (addr =? 0x164) (amb st)) in
    (valid, st)
  else (valid, st).

(** *** Transmit hook (lines 81-143) *)

(** Line 95 and line 99: the 13-bit signed steering torque, negated. *)
Definition desired_torque_of (to_send : CAN_FIFOMailBox_TypeDef) : Z :=
  let desired_torque :=
    Z.land (Z.shiftr (GET_BYTES_04 to_send) 8) 0x1FFF in
  -1 * to_signed desired_torque 13.

(** Lines 101-123: the three limit checks and the bookkeeping done while
    controls are allowed.  Returns the violation flag and the new state. *)
Definition steer_checks_allowed (st : St) (desired_torque ts : Z) : bool * St :=
  let violation := false in
  let violation :=
    violation || max_limit_check desired_torque
                   SUBARU_L_MAX_STEER (- SUBARU_L_MAX_STEER) in
  let violation :=
    violation || driver_limit_check desired_torque (desired_torque_last st)
                   (torque_driver st)
                   SUBARU_L_MAX_STEER SUBARU_L_MAX_RATE_UP
                   SUBARU_L_MAX_RATE_DOWN
                   SUBARU_L_DRIVER_TORQUE_ALLOWANCE
                   SUBARU_L_DRIVER_TORQUE_FACTOR in
  let st := set_desired_torque_last st desired_torque in
  let violation :=
    violation || rt_rate_limit_check desired_torque (rt_torque_last st)
                   SUBARU_L_MAX_RT_DELTA in
  let ts_elapsed := get_ts_elapsed ts (ts_last st) in
  let st :=
    if SUBARU_L_RT_INTERVAL <? ts_elapsed
    then set_ts_last (set_rt_torque_last st desired_torque) ts
    else st in
  (violation, st).

(** Lines 94-141: the body of [if (addr == 0x164)].  [ts] is the value
    [microsecond_timer_get()] returns during the call. *)
Definition steer_cmd_checks (st : St) (to_send : CAN_FIFOMailBox_TypeDef)
    (ts : Z) : bool * St :=
  let desired_torque := desired_torque_of to_send in
  let '(violation, st) :=
    if controls_allowed st
    then steer_checks_allowed st desired_torque ts
    else (false, st) in
  let violation :=
    if negb (controls_allowed st) && negb (desired_torque =? 0)
    then true
    else violation in
  let st :=
    if violation || negb (controls_allowed st)
    then set_ts_last
           (set_rt_torque_last (set_desired_torque_last st 0) 0) ts
    else st in
  (violation, st).

Definition subaru_legacy_tx_hook (st : St)
    (to_send : CAN_FIFOMailBox_TypeDef) (ts : Z) : Z * St :=
  let tx := 1 in
  let addr := GET_ADDR to_send in
  let tx := if negb (msg_allowed to_send SUBARU_L_TX_MSGS) then 0 else tx in
  let tx := if relay_malfunction (amb st) then 0 else tx in
  if addr =? 0x164 then
    let '(violation, st) := steer_cmd_checks st to_send ts in
    let tx := if violation then 0 else tx in
    (tx, st)
  else (tx, st).

(** *** Forwarding hook (lines 145-170) *)

Definition subaru_legacy_fwd_hook (st : St) (bus_num : Z)
    (to_fwd : CAN_FIFOMailBox_TypeDef) : Z :=
  let bus_fwd := -1 in
  let addr := GET_ADDR to_fwd in
  if negb (relay_malfunction (amb st)) then
    let bus_fwd :=
      if bus_num =? 0 then
        let block_msg := addr =? 0x140 in
        if negb block_msg then 2 else bus_fwd
      else bus_fwd in
    let bus_fwd :=
      if bus_num =? 2 then
        let block_msg := (addr =? 0x161) || (addr =? 0x164) in
        if negb block_msg then 0 else bus_fwd
      else bus_fwd in
    bus_fwd
  else bus_fwd.

(** *** Initialisation (lines 172-178) *)

Definition subaru_legacy_init (st : St) (param : Z) : list AddrCheck * St :=
  let st := set_controls_allowed st false in
  let st := set_amb st (relay_malfunction_reset (amb st)) in
  let st :=
    set_flip_driver_torque st
      (GET_FLAG param SUBARU_L_PARAM_FLIP_DRIVER_TORQUE) in
  (subaru_l_rx_checks, st).

(** Feeding a list of inbound frames to the receive hook, oldest first. *)
Fixpoint rx_run (st : St) (frames : list CAN_FIFOMailBox_TypeDef) : St :=
  match frames with
  | [] => st
  | f :: rest => rx_run (snd (subaru_legacy_rx_hook st f)) rest
  end.

(** Every frame of the list is accepted by the address validator at the
    moment it is received. *)
Fixpoint rx_all_valid (st : St) (frames : list CAN_FIFOMailBox_TypeDef) : Prop :=
  match frames with
  | [] => True
  | f :: rest =>
      fst (subaru_legacy_rx_hook st f) = true /\
      rx_all_valid (snd (subaru_legacy_rx_hook st f)) rest
  end.

End Hooks.

(** ** A concrete set of collaborators

    The theorems below hold for every implementation of the collaborators.
    To run the hooks on concrete frames one implementation is fixed here: the
    driver-torque tracker keeps the latest sample, the ambient state is the
    relay latch together with the verdict the address validator currently
    gives for the frames of its table, and the two rate checks compare the
    magnitude of the change with their bound. *)

Record ref_ambient : Type := mkRefAmbient {
  ref_relay : bool;
  ref_cadence_ok : bool
}.

Definition ref_in_table (f : CAN_FIFOMailBox_TypeDef)
    (checks : list AddrCheck) : bool :=
  existsb (fun c => (GET_ADDR f =? ac_addr c) && (GET_BUS f =? ac_bus c))
          checks.

Definition ref_driver_limit_check
    (val val_last val_driver MAX_VAL MAX_RATE_UP MAX_RATE_DOWN
     MAX_ALLOWANCE DRIVER_FACTOR : Z) : bool :=
  let relaxed := MAX_ALLOWANCE * DRIVER_FACTOR <? Z.abs val_driver in
  negb relaxed
  && (Z.max MAX_RATE_UP MAX_RATE_DOWN <? Z.abs (val - val_last)).

Definition ref_rt_rate_limit_check (val val_last MAX_RT_DELTA : Z) : bool :=
  MAX_RT_DELTA <? Z.abs (val - val_last).

#[export] Instance ref_collaborators : Collaborators Z ref_ambient := {
  addr_safety_check f checks a :=
    (if ref_in_table f checks then ref_cadence_ok a else true, a);
  generic_rx_checks _ a := a;
  relay_malfunction a := ref_relay a;
  relay_malfunction_reset a := mkRefAmbient false (ref_cadence_ok a);
  update_sample _ v := v;
  driver_limit_check := ref_driver_limit_check;
  rt_rate_limit_check := ref_rt_rate_limit_check
}.

Definition ref_state := State Z ref_ambient.

(** The state right after start-up: nothing received, controls off. *)
Definition ref_init : ref_state :=
  mkState 0 false false false false false 0 0 0 false
          (mkRefAmbient false true).

(** The same with controls allowed (cruise engaged). *)
Definition ref_engaged : ref_state :=
  mkState 0 true true false false false 0 0 0 false
          (mkRefAmbient false true).

(** A steering command on bus 0, length 8, whose low data word is [w]. *)
Definition steer_frame (w : Z) : CAN_FIFOMailBox_TypeDef :=
  mkFrame 0x164 0 8 w 0.

(** Controls allowed and the relay-malfunction latch set. *)
Definition ref_engaged_fault : ref_state :=
  mkState 0 true true false false false 0 0 0 false
          (mkRefAmbient true true).

(** Start-up state in which the validator currently rejects the frames of
    its table. *)
Definition ref_stale : ref_state :=
  mkState 0 false false false false false 0 0 0 false
          (mkRefAmbient false false).

(** Steering commands: torque -2048 (field 0x0800), -1 (field 0x0001) and
    +1 (field 0x1FFF). *)
Definition steer_m2048 : CAN_FIFOMailBox_TypeDef := steer_frame 0x080000.
Definition steer_m1 : CAN_FIFOMailBox_TypeDef := steer_frame 0x000100.
Definition steer_p1 : CAN_FIFOMailBox_TypeDef := steer_frame 0x1FFF00.

(** The torque -1 command again, but on bus 1 with length 4: not on the
    allow-list. *)
Definition steer_m1_off_list : CAN_FIFOMailBox_TypeDef :=
  mkFrame 0x164 1 4 0x000100 7.

(** Controls off while the last cruise-status frame seen said "engaged",
    as after a re-initialisation with cruise on. *)
Definition ref_cruise_on_controls_off : ref_state :=
  mkState 0 false true false false false 0 0 0 false
          (mkRefAmbient false true).

(** The torque -2048 command on bus 1 with length 4: not on the
    allow-list. *)
Definition steer_m2048_off_list : CAN_FIFOMailBox_TypeDef :=
  mkFrame 0x164 1 4 0x080000 7.

(** ** Vocabulary of the properties *)

(** Line 50: the cruise-engaged bit a cruise-status frame carries. *)
Definition cruise_engaged_of (f : CAN_FIFOMailBox_TypeDef) : bool :=
  truthy (Z.land (Z.shiftr (GET_BYTE f 6) 1) 1).

(** A cruise-status frame: address 0x144 received on bus 0. *)
Definition cruise_status_frame (f : CAN_FIFOMailBox_TypeDef) : Prop :=
  GET_ADDR f = 0x144 /\ GET_BUS f = 0.

(** The driver-torque field as the specification words it: "the low 3 bits
    of the high nibble of payload byte 3 combined with all 8 bits of payload
    byte 4", sign-extended over 11 bits.  The high nibble of a byte is its
    bits 7..4, the low three bits of that nibble are bits 6..4. *)
Definition spec_driver_torque (f : CAN_FIFOMailBox_TypeDef) : Z :=
  let high_nibble := Z.shiftr (GET_BYTE f 3) 4 in
  to_signed (Z.land high_nibble 0x7 + Z.shiftl (GET_BYTE f 4) 3) 11.

(** A cruise-status frame on bus 0 whose byte 6 is [b6]. *)
Definition cruise_frame (b6 : Z) : CAN_FIFOMailBox_TypeDef :=
  mkFrame 0x144 0 8 0 (Z.shiftl b6 16).

(** A driver-torque frame on bus 0 with payload bytes 3 and 4. *)
Definition driver_torque_frame (b3 b4 : Z) : CAN_FIFOMailBox_TypeDef :=
  mkFrame 0x371 0 8 (Z.shiftl b3 24) b4.

(** ** Runs of the module *)

(** What the dispatch loop does to the module: it offers an inbound frame to
    the receive hook, an outbound frame to the transmit hook (the clock
    reading [ts] at that moment), or (re)initialises it.  The forwarding
    hook writes nothing and is no event. *)
Inductive event : Type :=
| EvRx (f : CAN_FIFOMailBox_TypeDef)
| EvTx (f : CAN_FIFOMailBox_TypeDef) (ts : Z)
| EvInit (param : Z).

Section Runs.
Context {sample_t ambient : Type} {collab : Collaborators sample_t ambient}.

Definition step (st : State sample_t ambient) (ev : event)
    : State sample_t ambient :=
  match ev with
  | EvRx f => snd (subaru_legacy_rx_hook st f)
  | EvTx f ts => snd (subaru_legacy_tx_hook st f ts)
  | EvInit param => snd (subaru_legacy_init st param)
  end.

Definition run (st : State sample_t ambient) (evs : list event)
    : State sample_t ambient :=
  fold_left step evs st.

End Runs.

(** Line 62 and line 63: the two wheel-speed fields of a 0xD4 frame. *)
Definition wheel_speed_FR (f : CAN_FIFOMailBox_TypeDef) : Z :=
  Z.land (Z.shiftr (GET_BYTES_04 f) 16) 0xFFFF.
Definition wheel_speed_RL (f : CAN_FIFOMailBox_TypeDef) : Z :=
  Z.land (GET_BYTES_48 f) 0xFFFF.

(** The 13-bit field of a steering command (line 95), before sign
    conversion. *)
Definition steer_field (f : CAN_FIFOMailBox_TypeDef) : Z :=
  Z.land (Z.shiftr (GET_BYTES_04 f) 8) 0x1FFF.

(** The limiter anchors are within the steering bound. *)
Definition limiter_bounded {sample_t ambient : Type}
    (st : State sample_t ambient) : Prop :=
  Z.abs (desired_torque_last st) <= SUBARU_L_MAX_STEER
  /\ Z.abs (rt_torque_last st) <= SUBARU_L_MAX_STEER.

(** A wheel-speed frame on bus 0 with the two corner speeds. *)
Definition wheel_frame (fr rl : Z) : CAN_FIFOMailBox_TypeDef :=
  mkFrame 0xD4 0 8 (Z.shiftl fr 16) rl.

(** Outbound frames on the allow-list other than the steering command, with
    an arbitrary payload, and a steering command with torque 0. *)
Definition cruise_throttle_cmd : CAN_FIFOMailBox_TypeDef :=
  mkFrame 0x161 0 8 0xFFFFFFFF 0xFFFFFFFF.
Definition throttle_cmd : CAN_FIFOMailBox_TypeDef :=
  mkFrame 0x140 2 8 0x12345678 0.
Definition steer_zero : CAN_FIFOMailBox_TypeDef := steer_frame 0.

(** A steering command with torque -2 (field 0x0002). *)
Definition steer_m2 : CAN_FIFOMailBox_TypeDef := steer_frame 0x000200.

(** A cruise-status frame with the engaged bit set, seen on bus 2. *)
Definition cruise_frame_bus2 : CAN_FIFOMailBox_TypeDef :=
  mkFrame 0x144 2 8 0 (Z.shiftl 2 16).

(** Cruise reported off, then engaged. *)
Definition engage_events : list event :=
  [EvRx (cruise_frame 0); EvRx (cruise_frame 2)].

(** ** Properties of the hooks *)

Section Properties.
Context {sample_t ambient : Type} {collab : Collaborators sample_t ambient}.

Local Abbreviation St := (State sample_t ambient).

(** *** The violation flag *)

Arguments desired_torque_of : simpl never.
Arguments get_ts_elapsed : simpl never.
Arguments max_limit_check : simpl never.
Arguments msg_allowed : simpl never.

(** Unfolds the steering-command block at a state given field by field. *)
Ltac steer_unfold :=
  unfold steer_cmd_checks, steer_checks_allowed;
  cbn [controls_allowed desired_torque_last rt_torque_last ts_last
       torque_driver set_desired_torque_last set_rt_torque_last set_ts_last
       orb andb negb fst snd].

(** With controls allowed the flag is the disjunction of the three checks. *)
Lemma steer_violation_allowed (st : St) (f : CAN_FIFOMailBox_TypeDef) (ts : Z) :
  controls_allowed st = true ->
  fst (steer_cmd_checks st f ts) =
    max_limit_check (desired_torque_of f)
      SUBARU_L_MAX_STEER (- SUBARU_L_MAX_STEER)
    || driver_limit_check (desired_torque_of f) (desired_torque_last st)
         (torque_driver st) SUBARU_L_MAX_STEER SUBARU_L_MAX_RATE_UP
         SUBARU_L_MAX_RATE_DOWN SUBARU_L_DRIVER_TORQUE_ALLOWANCE
         SUBARU_L_DRIVER_TORQUE_FACTOR
    || rt_rate_limit_check (desired_torque_of f) (rt_torque_last st)
         SUBARU_L_MAX_RT_DELTA.
Proof.
  destruct st as [td ca cep vm bp gp dtl rtl tsl flip a].
  cbn [controls_allowed]. intros ->. steer_unfold.
  destruct (SUBARU_L_RT_INTERVAL <? get_ts_elapsed ts tsl); steer_unfold;
    destruct (_ || _ || _); reflexivity.
Qed.

(** With controls not allowed the flag says whether the torque is nonzero. *)
Lemma steer_violation_not_allowed (st : St) (f : CAN_FIFOMailBox_TypeDef)
    (ts : Z) :
  controls_allowed st = false ->
  fst (steer_cmd_checks st f ts) = negb (desired_torque_of f =? 0).
Proof.
  destruct st as [td ca cep vm bp gp dtl rtl tsl flip a].
  cbn [controls_allowed]. intros ->. steer_unfold.
  destruct (desired_torque_of f =? 0); reflexivity.
Qed.

(** The verdict on a steering command: denied as soon as the flag is set. *)
Lemma tx_verdict_steer (st : St) (f : CAN_FIFOMailBox_TypeDef) (ts : Z) :
  GET_ADDR f = 0x164 ->
  fst (steer_cmd_checks st f ts) = true ->
  fst (subaru_legacy_tx_hook st f ts) = 0.
Proof.
  intros Ha Hv. unfold subaru_legacy_tx_hook. rewrite Ha. cbn [Z.eqb Pos.eqb].
  destruct (steer_cmd_checks st f ts) as [v st']. cbn in Hv. subst v.
  reflexivity.
Qed.

(** The state a steering command leaves behind is the one computed by
    [steer_cmd_checks], whatever the allow-list and the relay latch say. *)
Lemma tx_state_steer (st : St) (f : CAN_FIFOMailBox_TypeDef) (ts : Z) :
  GET_ADDR f = 0x164 ->
  snd (subaru_legacy_tx_hook st f ts) = snd (steer_cmd_checks st f ts).
Proof.
  intros Ha. unfold subaru_legacy_tx_hook. rewrite Ha. cbn [Z.eqb Pos.eqb].
  destruct (steer_cmd_checks st f ts) as [v st']. reflexivity.
Qed.

(** C1: a steering command (address 0x164) whose decoded torque exceeds
    [SUBARU_L_MAX_STEER] = 2047 in magnitude is denied in every state: with
    controls allowed the absolute-bound check fires, with controls not
    allowed the torque is nonzero and that is a violation by itself. *)
Theorem tx_denies_torque_above_max_steer
    (st : St) (f : CAN_FIFOMailBox_TypeDef) (ts : Z) :
  GET_ADDR f = 0x164 ->
  SUBARU_L_MAX_STEER < Z.abs (desired_torque_of f) ->
  fst (subaru_legacy_tx_hook st f ts) = 0
  /\ (controls_allowed st = true ->
      max_limit_check (desired_torque_of f)
        SUBARU_L_MAX_STEER (- SUBARU_L_MAX_STEER) = true)
  /\ (controls_allowed st = false -> desired_torque_of f <> 0).
Proof.
  intros Ha Hbig.
  assert (Hmax : max_limit_check (desired_torque_of f)
                   SUBARU_L_MAX_STEER (- SUBARU_L_MAX_STEER) = true).
  { unfold max_limit_check, SUBARU_L_MAX_STEER in *.
    apply orb_true_iff. rewrite !Z.ltb_lt. lia. }
  assert (Hnz : desired_torque_of f <> 0).
  { unfold SUBARU_L_MAX_STEER in Hbig. lia. }
  split; [| split; intros _; assumption].
  apply tx_verdict_steer; [assumption|].
  destruct (controls_allowed st) eqn:Hca.
  - rewrite steer_violation_allowed by assumption. rewrite Hmax. reflexivity.
  - rewrite steer_violation_not_allowed by assumption.
    apply negb_true_iff, Z.eqb_neq. assumption.
Qed.

(** C2: with controls not allowed, a steering command carrying a nonzero
    torque is denied. *)
Theorem tx_denies_torque_without_controls
    (st : St) (f : CAN_FIFOMailBox_TypeDef) (ts : Z) :
  GET_ADDR f = 0x164 ->
  controls_allowed st = false ->
  desired_torque_of f <> 0 ->
  fst (subaru_legacy_tx_hook st f ts) = 0.
Proof.
  intros Ha Hca Hnz. apply tx_verdict_steer; [assumption|].
  rewrite steer_violation_not_allowed by assumption.
  apply negb_true_iff, Z.eqb_neq. assumption.
Qed.

(** C4: on a steering command, if one of the three checks fires or controls
    are not allowed, the limiter is back at the neutral baseline after the
    call: [desired_torque_last = 0], [rt_torque_last = 0] and [ts_last] is
    the timestamp read during the call. *)
Theorem tx_resets_limiter
    (st : St) (f : CAN_FIFOMailBox_TypeDef) (ts : Z) :
  GET_ADDR f = 0x164 ->
  controls_allowed st = false
  \/ max_limit_check (desired_torque_of f)
       SUBARU_L_MAX_STEER (- SUBARU_L_MAX_STEER) = true
  \/ driver_limit_check (desired_torque_of f) (desired_torque_last st)
       (torque_driver st) SUBARU_L_MAX_STEER SUBARU_L_MAX_RATE_UP
       SUBARU_L_MAX_RATE_DOWN SUBARU_L_DRIVER_TORQUE_ALLOWANCE
       SUBARU_L_DRIVER_TORQUE_FACTOR = true
  \/ rt_rate_limit_check (desired_torque_of f) (rt_torque_last st)
       SUBARU_L_MAX_RT_DELTA = true ->
  let st' := snd (subaru_legacy_tx_hook st f ts) in
  desired_torque_last st' = 0 /\ rt_torque_last st' = 0 /\ ts_last st' = ts.
Proof.
  intros Ha Hcond st'. subst st'. rewrite tx_state_steer by assumption.
  destruct (controls_allowed st) eqn:Hca.
  - assert (Hv : fst (steer_cmd_checks st f ts) = true).
    { rewrite steer_violation_allowed by assumption.
      destruct Hcond as [Hc | [Hc | [Hc | Hc]]];
        [discriminate | rewrite Hc ..];
        rewrite ?orb_true_r; reflexivity. }
    revert Hv Hca. destruct st as [td ca cep vm bp gp dtl rtl tsl flip a].
    cbn [controls_allowed]. intros Hv ->. revert Hv. steer_unfold.
    destruct (SUBARU_L_RT_INTERVAL <? get_ts_elapsed ts tsl); steer_unfold;
      intros ->; cbn; auto.
  - revert Hca. destruct st as [td ca cep vm bp gp dtl rtl tsl flip a].
    cbn [controls_allowed]. intros ->. steer_unfold.
    destruct (desired_torque_of f =? 0); cbn; auto.
Qed.

(** C5: while the relay-malfunction latch is set, the transmit hook denies
    and the forwarding hook returns -1, for every frame, source bus and
    timestamp. *)
Theorem relay_malfunction_blocks_all
    (st : St) (f : CAN_FIFOMailBox_TypeDef) (ts bus_num : Z) :
  relay_malfunction (amb st) = true ->
  fst (subaru_legacy_tx_hook st f ts) = 0
  /\ subaru_legacy_fwd_hook st bus_num f = -1.
Proof.
  intros Hrm. split.
  - unfold subaru_legacy_tx_hook. rewrite Hrm.
    destruct (GET_ADDR f =? 0x164); [|reflexivity].
    destruct (steer_cmd_checks st f ts) as [[|] st']; reflexivity.
  - unfold subaru_legacy_fwd_hook. rewrite Hrm. reflexivity.
Qed.

(** C6: with the relay latch clear, bus 0 is forwarded to bus 2 except for
    address 0x140, bus 2 is forwarded to bus 0 except for addresses 0x161 and
    0x164, and no other source bus is forwarded. *)
Theorem fwd_routing
    (st : St) (f : CAN_FIFOMailBox_TypeDef) (bus_num : Z) :
  relay_malfunction (amb st) = false ->
  (bus_num = 0 -> GET_ADDR f <> 0x140 ->
     subaru_legacy_fwd_hook st bus_num f = 2)
  /\ (bus_num = 0 -> GET_ADDR f = 0x140 ->
     subaru_legacy_fwd_hook st bus_num f = -1)
  /\ (bus_num = 2 -> GET_ADDR f <> 0x161 -> GET_ADDR f <> 0x164 ->
     subaru_legacy_fwd_hook st bus_num f = 0)
  /\ (bus_num = 2 -> GET_ADDR f = 0x161 \/ GET_ADDR f = 0x164 ->
     subaru_legacy_fwd_hook st bus_num f = -1)
  /\ (bus_num <> 0 -> bus_num <> 2 ->
     subaru_legacy_fwd_hook st bus_num f = -1).
Proof.
  intros Hrm. unfold subaru_legacy_fwd_hook. rewrite Hrm. cbn [negb].
  repeat split.
  - intros -> Ha. apply Z.eqb_neq in Ha. rewrite Ha. reflexivity.
  - intros -> Ha. rewrite Ha. reflexivity.
  - intros -> Ha1 Ha2. apply Z.eqb_neq in Ha1, Ha2. rewrite Ha1, Ha2.
    reflexivity.
  - intros -> [Ha | Ha]; rewrite Ha; reflexivity.
  - intros Hb0 Hb2. apply Z.eqb_neq in Hb0, Hb2. rewrite Hb0, Hb2.
    reflexivity.
Qed.

(** The steering-command block never looks at the ambient state: replacing
    it changes neither the flag nor the module variables it writes. *)
Lemma steer_cmd_checks_frame (st1 st2 : St) (f1 f2 : CAN_FIFOMailBox_TypeDef)
    (ts : Z) :
  desired_torque_of f1 = desired_torque_of f2 ->
  same_module_state st1 st2 ->
  fst (steer_cmd_checks st1 f1 ts) = fst (steer_cmd_checks st2 f2 ts)
  /\ same_module_state (snd (steer_cmd_checks st1 f1 ts))
                       (snd (steer_cmd_checks st2 f2 ts))
  /\ amb (snd (steer_cmd_checks st1 f1 ts)) = amb st1.
Proof.
  intros Hd Hs.
  destruct st1 as [td1 ca1 cep1 vm1 bp1 gp1 dtl1 rtl1 tsl1 flip1 a1].
  destruct st2 as [td2 ca2 cep2 vm2 bp2 gp2 dtl2 rtl2 tsl2 flip2 a2].
  unfold same_module_state in Hs. cbn in Hs.
  destruct Hs as (-> & -> & -> & -> & -> & -> & -> & -> & -> & ->).
  unfold steer_cmd_checks, steer_checks_allowed. rewrite Hd.
  cbn [controls_allowed desired_torque_last rt_torque_last ts_last
       torque_driver set_desired_torque_last set_rt_torque_last set_ts_last
       orb andb negb fst snd amb vehicle_moving brake_pressed gas_pressed
       cruise_engaged_prev subaru_l_flip_driver_torque].
  destruct ca2;
    cbn [controls_allowed desired_torque_last rt_torque_last ts_last
         torque_driver set_desired_torque_last set_rt_torque_last set_ts_last
         orb andb negb fst snd].
  - destruct (SUBARU_L_RT_INTERVAL <? get_ts_elapsed ts tsl2);
      cbn [controls_allowed negb andb orb];
      destruct (_ || _ || _);
      unfold same_module_state; cbn; repeat split; reflexivity.
  - destruct (desired_torque_of f2 =? 0);
      unfold same_module_state; cbn; repeat split; reflexivity.
Qed.

(** The limiter triple the steering block leaves, by cases: reset when
    controls are off or a check fires, otherwise the torque is recorded and
    the anchor rolls forward only after the interval. *)
Lemma steer_limiter_cases (st : St) (f : CAN_FIFOMailBox_TypeDef) (ts : Z) :
  limiter (snd (steer_cmd_checks st f ts)) =
    if controls_allowed st
       && negb (max_limit_check (desired_torque_of f)
                  SUBARU_L_MAX_STEER (- SUBARU_L_MAX_STEER)
                || driver_limit_check (desired_torque_of f)
                     (desired_torque_last st) (torque_driver st)
                     SUBARU_L_MAX_STEER SUBARU_L_MAX_RATE_UP
                     SUBARU_L_MAX_RATE_DOWN SUBARU_L_DRIVER_TORQUE_ALLOWANCE
                     SUBARU_L_DRIVER_TORQUE_FACTOR
                || rt_rate_limit_check (desired_torque_of f)
                     (rt_torque_last st) SUBARU_L_MAX_RT_DELTA)
    then if SUBARU_L_RT_INTERVAL <? get_ts_elapsed ts (ts_last st)
         then (desired_torque_of f, desired_torque_of f, ts)
         else (desired_torque_of f, rt_torque_last st, ts_last st)
    else (0, 0, ts).
Proof.
  destruct st as [td ca cep vm bp gp dtl rtl tsl flip a].
  unfold limiter. steer_unfold. destruct ca; steer_unfold.
  - destruct (SUBARU_L_RT_INTERVAL <? get_ts_elapsed ts tsl); steer_unfold;
      destruct (max_limit_check _ _ _), (driver_limit_check _ _ _ _ _ _ _ _),
        (rt_rate_limit_check _ _ _); reflexivity.
  - destruct (desired_torque_of f =? 0); reflexivity.
Qed.

(** The steering block writes the limiter triple and nothing else. *)
Lemma steer_writes_limiter_only (st : St) (f : CAN_FIFOMailBox_TypeDef)
    (ts : Z) :
  let st' := snd (steer_cmd_checks st f ts) in
  torque_driver st' = torque_driver st
  /\ controls_allowed st' = controls_allowed st
  /\ cruise_engaged_prev st' = cruise_engaged_prev st
  /\ vehicle_moving st' = vehicle_moving st
  /\ brake_pressed st' = brake_pressed st
  /\ gas_pressed st' = gas_pressed st
  /\ subaru_l_flip_driver_torque st' = subaru_l_flip_driver_torque st
  /\ amb st' = amb st.
Proof.
  destruct st as [td ca cep vm bp gp dtl rtl tsl flip a].
  cbv zeta. steer_unfold. destruct ca; steer_unfold.
  - destruct (SUBARU_L_RT_INTERVAL <? get_ts_elapsed ts tsl); steer_unfold;
      destruct (max_limit_check _ _ _), (driver_limit_check _ _ _ _ _ _ _ _),
        (rt_rate_limit_check _ _ _); cbn; repeat split; reflexivity.
  - destruct (desired_torque_of f =? 0); cbn; repeat split; reflexivity.
Qed.

(** C10: on address 0x164 the limiter update does not depend on what the
    allow-list or the relay latch decided.  A frame [f2] denied by either of
    them (wrong bus, wrong length, relay malfunction) gets verdict 0, and
    still: the three checks are evaluated on its decoded torque; if controls
    are not allowed or one of them fires the limiter is reset to
    [(0, 0, ts)]; otherwise the torque is recorded in [desired_torque_last]
    and the real-time anchor rolls forward to [(torque, ts)] when more than
    [SUBARU_L_RT_INTERVAL] microseconds have elapsed and is kept otherwise;
    no other variable is written.  The outcome is the one any frame [f1]
    with the same address and payload word has from a state with the same
    module variables. *)
Theorem tx_state_update_ignores_denial
    (st1 st2 : St) (f1 f2 : CAN_FIFOMailBox_TypeDef) (ts : Z) :
  GET_ADDR f1 = 0x164 ->
  GET_ADDR f2 = 0x164 ->
  GET_BYTES_04 f1 = GET_BYTES_04 f2 ->
  same_module_state st1 st2 ->
  msg_allowed f2 SUBARU_L_TX_MSGS = false
  \/ relay_malfunction (amb st2) = true ->
  let d := desired_torque_of f2 in
  let st2' := snd (subaru_legacy_tx_hook st2 f2 ts) in
  fst (subaru_legacy_tx_hook st2 f2 ts) = 0
  /\ (controls_allowed st2 = false
      \/ max_limit_check d SUBARU_L_MAX_STEER (- SUBARU_L_MAX_STEER) = true
      \/ driver_limit_check d (desired_torque_last st2) (torque_driver st2)
           SUBARU_L_MAX_STEER SUBARU_L_MAX_RATE_UP SUBARU_L_MAX_RATE_DOWN
           SUBARU_L_DRIVER_TORQUE_ALLOWANCE SUBARU_L_DRIVER_TORQUE_FACTOR
         = true
      \/ rt_rate_limit_check d (rt_torque_last st2) SUBARU_L_MAX_RT_DELTA
         = true ->
      limiter st2' = (0, 0, ts))
  /\ (controls_allowed st2 = true ->
      max_limit_check d SUBARU_L_MAX_STEER (- SUBARU_L_MAX_STEER) = false ->
      driver_limit_check d (desired_torque_last st2) (torque_driver st2)
        SUBARU_L_MAX_STEER SUBARU_L_MAX_RATE_UP SUBARU_L_MAX_RATE_DOWN
        SUBARU_L_DRIVER_TORQUE_ALLOWANCE SUBARU_L_DRIVER_TORQUE_FACTOR
      = false ->
      rt_rate_limit_check d (rt_torque_last st2) SUBARU_L_MAX_RT_DELTA
      = false ->
      limiter st2' =
        if SUBARU_L_RT_INTERVAL <? get_ts_elapsed ts (ts_last st2)
        then (d, d, ts)
        else (d, rt_torque_last st2, ts_last st2))
  /\ (torque_driver st2' = torque_driver st2
      /\ controls_allowed st2' = controls_allowed st2
      /\ cruise_engaged_prev st2' = cruise_engaged_prev st2
      /\ vehicle_moving st2' = vehicle_moving st2
      /\ brake_pressed st2' = brake_pressed st2
      /\ gas_pressed st2' = gas_pressed st2
      /\ subaru_l_flip_driver_torque st2' = subaru_l_flip_driver_torque st2
      /\ amb st2' = amb st2)
  /\ same_module_state (snd (subaru_legacy_tx_hook st1 f1 ts)) st2'
  /\ st2' = snd (steer_cmd_checks st2 f2 ts)
  /\ fst (steer_cmd_checks st2 f2 ts) = fst (steer_cmd_checks st1 f1 ts).
Proof.
  intros Ha1 Ha2 Hw Hs Hden d st2'. subst d st2'.
  assert (Hd : desired_torque_of f1 = desired_torque_of f2).
  { unfold desired_torque_of. rewrite Hw. reflexivity. }
  destruct (steer_cmd_checks_frame st1 st2 f1 f2 ts Hd Hs) as (Hv & Hm & _).
  rewrite !tx_state_steer by assumption.
  split; [| split; [| split; [| split; [| split; [| split]]]]].
  - unfold subaru_legacy_tx_hook. rewrite Ha2. cbn [Z.eqb Pos.eqb].
    destruct (steer_cmd_checks st2 f2 ts) as [[|] st']; [reflexivity|].
    destruct Hden as [Hden | Hden]; rewrite Hden; cbn [negb];
      [destruct (relay_malfunction (amb st2))|]; reflexivity.
  - intros Hfire. rewrite steer_limiter_cases.
    destruct Hfire as [Hc | [Hc | [Hc | Hc]]]; rewrite Hc;
      rewrite ?orb_true_r; cbn [orb negb andb];
      rewrite ?andb_false_r; reflexivity.
  - intros Hca H1 H2 H3. rewrite steer_limiter_cases, Hca, H1, H2, H3.
    reflexivity.
  - apply steer_writes_limiter_only.
  - exact Hm.
  - reflexivity.
  - symmetry. exact Hv.
Qed.

(** C8 (amended): on a steering command, whenever strictly more than
    [SUBARU_L_RT_INTERVAL] microseconds have elapsed since [ts_last],
    [ts_last] becomes the current timestamp.  With controls allowed and none
    of the three checks firing, the anchor rolls forward to the decoded
    torque and the current timestamp exactly in that case: when
    [SUBARU_L_RT_INTERVAL] microseconds or fewer have elapsed,
    [rt_torque_last] and [ts_last] are left as they were.  With controls not
    allowed or a check firing, the anchor is reset to 0 at the current
    timestamp instead. *)
Theorem tx_rt_anchor_rolls_forward
    (st : St) (f : CAN_FIFOMailBox_TypeDef) (ts : Z) :
  GET_ADDR f = 0x164 ->
  let d := desired_torque_of f in
  let st' := snd (subaru_legacy_tx_hook st f ts) in
  (SUBARU_L_RT_INTERVAL < get_ts_elapsed ts (ts_last st) -> ts_last st' = ts)
  /\ (controls_allowed st = true ->
      max_limit_check d SUBARU_L_MAX_STEER (- SUBARU_L_MAX_STEER) = false ->
      driver_limit_check d (desired_torque_last st) (torque_driver st)
        SUBARU_L_MAX_STEER SUBARU_L_MAX_RATE_UP SUBARU_L_MAX_RATE_DOWN
        SUBARU_L_DRIVER_TORQUE_ALLOWANCE SUBARU_L_DRIVER_TORQUE_FACTOR
      = false ->
      rt_rate_limit_check d (rt_torque_last st) SUBARU_L_MAX_RT_DELTA
      = false ->
      fst (steer_cmd_checks st f ts) = false
      /\ desired_torque_last st' = d
      /\ (SUBARU_L_RT_INTERVAL < get_ts_elapsed ts (ts_last st) ->
          rt_torque_last st' = d /\ ts_last st' = ts)
      /\ (get_ts_elapsed ts (ts_last st) <= SUBARU_L_RT_INTERVAL ->
          rt_torque_last st' = rt_torque_last st
          /\ ts_last st' = ts_last st))
  /\ (controls_allowed st = false
      \/ max_limit_check d SUBARU_L_MAX_STEER (- SUBARU_L_MAX_STEER) = true
      \/ driver_limit_check d (desired_torque_last st) (torque_driver st)
           SUBARU_L_MAX_STEER SUBARU_L_MAX_RATE_UP SUBARU_L_MAX_RATE_DOWN
           SUBARU_L_DRIVER_TORQUE_ALLOWANCE SUBARU_L_DRIVER_TORQUE_FACTOR
         = true
      \/ rt_rate_limit_check d (rt_torque_last st) SUBARU_L_MAX_RT_DELTA
         = true ->
      desired_torque_last st' = 0
      /\ rt_torque_last st' = 0 /\ ts_last st' = ts).
Proof.
  intros Ha d st'. subst d st'. rewrite tx_state_steer by assumption.
  pose proof (steer_limiter_cases st f ts) as Hlim. unfold limiter in Hlim.
  split; [| split].
  - intros Hel. apply Z.ltb_lt in Hel. rewrite Hel in Hlim.
    destruct (controls_allowed st && negb _) in Hlim;
      injection Hlim as _ _ Hts; exact Hts.
  - intros Hca H1 H2 H3. rewrite Hca, H1, H2, H3 in Hlim.
    cbn [orb negb andb] in Hlim.
    split; [| split; [| split]].
    + rewrite steer_violation_allowed by assumption.
      rewrite H1, H2, H3. reflexivity.
    + destruct (SUBARU_L_RT_INTERVAL <? _) in Hlim;
        injection Hlim as Hd _ _; exact Hd.
    + intros Hel. apply Z.ltb_lt in Hel. rewrite Hel in Hlim.
      injection Hlim as _ Hr Hts. split; assumption.
    + intros Hel. apply Z.ltb_ge in Hel. rewrite Hel in Hlim.
      injection Hlim as _ Hr Hts. split; assumption.
  - intros Hfire.
    assert (Hreset : (desired_torque_last (snd (steer_cmd_checks st f ts)),
                      rt_torque_last (snd (steer_cmd_checks st f ts)),
                      ts_last (snd (steer_cmd_checks st f ts))) = (0, 0, ts)).
    { rewrite Hlim.
      destruct Hfire as [Hc | [Hc | [Hc | Hc]]]; rewrite Hc;
        rewrite ?orb_true_r; cbn [orb negb andb];
        rewrite ?andb_false_r; reflexivity. }
    injection Hreset as Hd Hr Hts. repeat split; assumption.
Qed.

(** *** The receive hook *)

(** A frame the validator rejects changes nothing but the validator's own
    bookkeeping. *)
Lemma rx_hook_invalid (st : St) (f : CAN_FIFOMailBox_TypeDef) :
  fst (addr_safety_check f subaru_l_rx_checks (amb st)) = false ->
  subaru_legacy_rx_hook st f =
    (false, set_amb st (snd (addr_safety_check f subaru_l_rx_checks (amb st)))).
Proof.
  unfold subaru_legacy_rx_hook.
  destruct (addr_safety_check f subaru_l_rx_checks (amb st)) as [valid a].
  cbn [fst snd]. intros ->. reflexivity.
Qed.

(** The verdict returned is the validator's. *)
Lemma rx_hook_verdict (st : St) (f : CAN_FIFOMailBox_TypeDef) :
  fst (subaru_legacy_rx_hook st f) =
  fst (addr_safety_check f subaru_l_rx_checks (amb st)).
Proof.
  unfold subaru_legacy_rx_hook.
  destruct (addr_safety_check f subaru_l_rx_checks (amb st)) as [valid a].
  destruct (valid && _); reflexivity.
Qed.

(** One accepted cruise-status frame: the edge rule. *)
Lemma rx_cruise_step (st : St) (f : CAN_FIFOMailBox_TypeDef) :
  cruise_status_frame f ->
  fst (subaru_legacy_rx_hook st f) = true ->
  let st' := snd (subaru_legacy_rx_hook st f) in
  cruise_engaged_prev st' = cruise_engaged_of f
  /\ controls_allowed st' =
       cruise_engaged_of f
       && (negb (cruise_engaged_prev st) || controls_allowed st).
Proof.
  intros [Ha Hb]. rewrite rx_hook_verdict.
  unfold subaru_legacy_rx_hook.
  destruct (addr_safety_check f subaru_l_rx_checks (amb st)) as [valid a].
  cbn [fst]. intros ->. rewrite Hb, Ha. cbn [Z.eqb Pos.eqb andb snd].
  unfold rx_cruise. fold (cruise_engaged_of f).
  destruct st as [td ca cep vm bp gp dtl rtl tsl flip a0].
  cbn [set_amb torque_driver controls_allowed cruise_engaged_prev
       vehicle_moving brake_pressed gas_pressed desired_torque_last
       rt_torque_last ts_last subaru_l_flip_driver_torque amb].
  destruct (cruise_engaged_of f), cep, ca; cbn; split; reflexivity.
Qed.

Lemma rx_run_app (st : St) (xs ys : list CAN_FIFOMailBox_TypeDef) :
  rx_run st (xs ++ ys) = rx_run (rx_run st xs) ys.
Proof.
  revert st. induction xs as [| x xs IH]; intros st; cbn; [reflexivity|].
  apply IH.
Qed.

Lemma rx_all_valid_app (st : St) (xs ys : list CAN_FIFOMailBox_TypeDef) :
  rx_all_valid st (xs ++ ys) ->
  rx_all_valid st xs /\ rx_all_valid (rx_run st xs) ys.
Proof.
  revert st. induction xs as [| x xs IH]; intros st; cbn.
  - intros Hv. split; [exact I | exact Hv].
  - intros [Hx Hrest]. destruct (IH _ Hrest) as [H1 H2]. repeat split; auto.
Qed.

(** C3: along any run of accepted cruise-status frames (address 0x144, bus
    0), at every frame [c] of the run, the first included:
    [cruise_engaged_prev], which before [c] holds the bit of the frame just
    before it, holds the bit of [c] afterwards; [controls_allowed] is false
    if the bit of [c] is 0, whatever it was before; it is true if the bit is
    1 and [cruise_engaged_prev] was false (a 0 to 1 transition); and it is
    left as it was if the bit is 1 and [cruise_engaged_prev] was already
    true, so that it becomes true on a rising edge only. *)
Theorem cruise_edge_drives_controls
    (st : St) (pre : list CAN_FIFOMailBox_TypeDef)
    (c : CAN_FIFOMailBox_TypeDef) :
  Forall cruise_status_frame (pre ++ [c]) ->
  rx_all_valid st (pre ++ [c]) ->
  let s1 := rx_run st pre in
  let s2 := rx_run st (pre ++ [c]) in
  (forall pre' p, pre = pre' ++ [p] ->
     cruise_engaged_prev s1 = cruise_engaged_of p)
  /\ cruise_engaged_prev s2 = cruise_engaged_of c
  /\ (cruise_engaged_of c = false -> controls_allowed s2 = false)
  /\ (cruise_engaged_prev s1 = false -> cruise_engaged_of c = true ->
      controls_allowed s2 = true)
  /\ (cruise_engaged_prev s1 = true -> cruise_engaged_of c = true ->
      controls_allowed s2 = controls_allowed s1).
Proof.
  intros Hall Hval s1 s2. subst s1 s2.
  apply Forall_app in Hall as [Hpre Hc1].
  inversion Hc1 as [| ? ? Hc _]; subst.
  apply rx_all_valid_app in Hval as [Hvpre Hvc].
  cbn [rx_all_valid] in Hvc. destruct Hvc as [Hvc _].
  rewrite (rx_run_app st pre [c]). cbn [rx_run].
  split.
  - intros pre' p ->.
    apply Forall_app in Hpre as [_ Hp1].
    inversion Hp1 as [| ? ? Hp _]; subst.
    apply rx_all_valid_app in Hvpre as [_ Hvp].
    cbn [rx_all_valid] in Hvp. destruct Hvp as [Hvp _].
    rewrite (rx_run_app st pre' [p]). cbn [rx_run].
    apply (rx_cruise_step (rx_run st pre') p Hp Hvp).
  - destruct (rx_cruise_step (rx_run st pre) c Hc Hvc) as [Hc1' Hc2].
    split; [exact Hc1'|]. rewrite Hc2.
    repeat split.
    + intros ->. reflexivity.
    + intros -> ->. reflexivity.
    + intros -> ->. reflexivity.
Qed.

(** C7: a frame the address validator rejects gets the invalid verdict and
    leaves every variable of the module as it was: the driver-torque sample,
    [controls_allowed], [cruise_engaged_prev], [vehicle_moving],
    [brake_pressed], [gas_pressed], and the limiter and configuration
    variables too. *)
Theorem rx_invalid_keeps_state (st : St) (f : CAN_FIFOMailBox_TypeDef) :
  fst (addr_safety_check f subaru_l_rx_checks (amb st)) = false ->
  let st' := snd (subaru_legacy_rx_hook st f) in
  fst (subaru_legacy_rx_hook st f) = false
  /\ torque_driver st' = torque_driver st
  /\ controls_allowed st' = controls_allowed st
  /\ cruise_engaged_prev st' = cruise_engaged_prev st
  /\ vehicle_moving st' = vehicle_moving st
  /\ brake_pressed st' = brake_pressed st
  /\ gas_pressed st' = gas_pressed st
  /\ same_module_state st' st.
Proof.
  intros Hinv st'. subst st'. rewrite (rx_hook_invalid st f Hinv).
  cbn [fst snd]. unfold same_module_state.
  destruct st; cbn. repeat split; reflexivity.
Qed.

(** *** Bit layout of the driver-torque field *)

Lemma GET_BYTE_range (f : CAN_FIFOMailBox_TypeDef) (b : Z) :
  0 <= GET_BYTE f b < 256.
Proof.
  unfold GET_BYTE. change 0xFF with (Z.ones 8).
  destruct (3 <? b); rewrite Z.land_ones by lia;
    change (2 ^ 8) with 256; apply Z.mod_pos_bound; lia.
Qed.

(** A byte has no bit above bit 7. *)
Lemma byte_bits_high (b i : Z) :
  0 <= b < 256 -> 8 <= i -> Z.testbit b i = false.
Proof.
  intros Hb Hi. destruct (Z.eq_dec b 0) as [-> | Hnz].
  - apply Z.testbit_0_l.
  - apply Z.bits_above_log2; [lia|].
    assert (Z.log2 b < 8) by (apply Z.log2_lt_pow2; lia). lia.
Qed.

(** The two halves of the field do not overlap, so adding them is the same
    as juxtaposing their bits. *)
Lemma driver_field_bits (b3 b4 i : Z) :
  0 <= b3 < 256 -> 0 <= b4 < 256 -> 0 <= i ->
  Z.testbit (Z.shiftr b3 5 + Z.shiftl b4 3) i =
  if i <? 3 then Z.testbit b3 (i + 5) else Z.testbit b4 (i - 3).
Proof.
  intros H3 H4 Hi.
  assert (Hdisj : Z.land (Z.shiftr b3 5) (Z.shiftl b4 3) = 0).
  { apply Z.bits_inj'. intros n Hn.
    rewrite Z.land_spec, Z.bits_0, Z.shiftr_spec by lia.
    destruct (Z.ltb_spec n 3).
    - rewrite Z.shiftl_spec_low by lia. apply andb_false_r.
    - rewrite byte_bits_high by lia. reflexivity. }
  rewrite (Z.add_nocarry_lxor _ _ Hdisj), (Z.lxor_lor _ _ Hdisj).
  rewrite Z.lor_spec, Z.shiftr_spec by lia.
  destruct (Z.ltb_spec i 3).
  - rewrite Z.shiftl_spec_low by lia. apply orb_false_r.
  - rewrite byte_bits_high by lia. rewrite Z.shiftl_spec by lia.
    reflexivity.
Qed.

Lemma driver_field_range (b3 b4 : Z) :
  0 <= b3 < 256 -> 0 <= b4 < 256 ->
  0 <= Z.shiftr b3 5 + Z.shiftl b4 3 < 2048.
Proof.
  intros H3 H4. rewrite Z.shiftr_div_pow2, Z.shiftl_mul_pow2 by lia.
  change (2 ^ 5) with 32. change (2 ^ 3) with 8.
  assert (0 <= b3 / 32 < 8).
  { split; [apply Z.div_pos; lia | apply Z.div_lt_upper_bound; lia]. }
  lia.
Qed.

(** [to_signed _ 11] keeps the low 11 bits ... *)
Lemma to_signed_11_low (d i : Z) :
  0 <= d < 2048 -> 0 <= i < 11 ->
  Z.testbit (to_signed d 11) i = Z.testbit d i.
Proof.
  intros Hd Hi. unfold to_signed.
  change (2 ^ (11 - 1)) with 1024. change (2 ^ 11) with 2048.
  destruct (1024 <=? d); [|reflexivity].
  rewrite <- (Z.mod_pow2_bits_low (d - 2048) 11 i) by lia.
  rewrite <- (Z.mod_pow2_bits_low d 11 i) by lia.
  change (2 ^ 11) with 2048.
  replace (d - 2048) with (d + (-1) * 2048) by lia.
  rewrite Z.mod_add by lia. reflexivity.
Qed.

(** ... and copies bit 10 into every higher position. *)
Lemma to_signed_11_high (d i : Z) :
  0 <= d < 2048 -> 10 <= i ->
  Z.testbit (to_signed d 11) i = Z.testbit d 10.
Proof.
  intros Hd Hi. unfold to_signed.
  change (2 ^ (11 - 1)) with 1024. change (2 ^ 11) with 2048.
  destruct (Z.leb_spec 1024 d) as [Hge | Hlt].
  - assert (Hb : Z.testbit d 10 = true).
    { apply Z.testbit_true; [lia|]. change (2 ^ 10) with 1024.
      assert (Hq : d / 1024 = 1)
        by (symmetry; apply Z.div_unique with (r := d - 1024); lia).
      rewrite Hq. reflexivity. }
    rewrite Hb. apply Z.bits_above_log2_neg; [lia|].
    assert (Z.log2 (Z.pred (- (d - 2048))) < 10); [|lia].
    destruct (Z.eq_dec (Z.pred (- (d - 2048))) 0) as [-> | Hnz];
      [cbn; lia | apply Z.log2_lt_pow2; lia].
  - assert (Hhi : forall j, 10 <= j -> Z.testbit d j = false).
    { intros j Hj. destruct (Z.eq_dec d 0) as [-> | Hnz].
      - apply Z.testbit_0_l.
      - apply Z.bits_above_log2; [lia|].
        assert (Z.log2 d < 10) by (apply Z.log2_lt_pow2; lia). lia. }
    rewrite !Hhi by lia. reflexivity.
Qed.

Lemma to_signed_11_range (d : Z) :
  0 <= d < 2048 -> -1024 <= to_signed d 11 < 1024.
Proof.
  intros Hd. unfold to_signed.
  change (2 ^ (11 - 1)) with 1024. change (2 ^ 11) with 2048.
  destruct (Z.leb_spec 1024 d); lia.
Qed.

(** C9 (amended): on an accepted driver-torque frame (address 0x371, bus 0)
    the tracker is fed the value [v], negated exactly when the flip flag is
    set, where [v] is the 11-bit two's-complement number whose bits 0..2 are
    the top three bits (bits 7..5) of payload byte 3 and whose bits 3..10
    are the eight bits of payload byte 4, bit 7 of byte 4 being the sign. *)
Theorem rx_driver_torque_sample (st : St) (f : CAN_FIFOMailBox_TypeDef) :
  GET_ADDR f = 0x371 ->
  GET_BUS f = 0 ->
  fst (subaru_legacy_rx_hook st f) = true ->
  exists v : Z,
    torque_driver (snd (subaru_legacy_rx_hook st f)) =
      update_sample (torque_driver st)
        (if subaru_l_flip_driver_torque st then - v else v)
    /\ (forall i, 0 <= i < 3 ->
          Z.testbit v i = Z.testbit (GET_BYTE f 3) (i + 5))
    /\ (forall i, 3 <= i < 11 ->
          Z.testbit v i = Z.testbit (GET_BYTE f 4) (i - 3))
    /\ (forall i, 11 <= i -> Z.testbit v i = Z.testbit (GET_BYTE f 4) 7)
    /\ -1024 <= v < 1024.
Proof.
  intros Ha Hb. rewrite rx_hook_verdict. intros Hvalid.
  pose proof (GET_BYTE_range f 3) as H3.
  pose proof (GET_BYTE_range f 4) as H4.
  pose proof (driver_field_range _ _ H3 H4) as Hr.
  exists (to_signed (Z.shiftr (GET_BYTE f 3) 5 + Z.shiftl (GET_BYTE f 4) 3) 11).
  split; [| split; [| split; [| split]]].
  - revert Hvalid. unfold subaru_legacy_rx_hook.
    destruct (addr_safety_check f subaru_l_rx_checks (amb st)) as [valid a].
    cbn [fst]. intros ->. rewrite Hb, Ha. cbn [Z.eqb Pos.eqb andb snd].
    unfold rx_driver_torque.
    destruct st as [td ca cep vm bp gp dtl rtl tsl flip a0].
    cbn [set_amb set_torque_driver torque_driver controls_allowed
         cruise_engaged_prev vehicle_moving brake_pressed gas_pressed
         desired_torque_last rt_torque_last ts_last
         subaru_l_flip_driver_torque amb].
    destruct flip; reflexivity.
  - intros i Hi. rewrite to_signed_11_low by lia.
    rewrite driver_field_bits by lia.
    destruct (Z.ltb_spec i 3); [reflexivity | lia].
  - intros i Hi. rewrite to_signed_11_low by lia.
    rewrite driver_field_bits by lia.
    destruct (Z.ltb_spec i 3); [lia | reflexivity].
  - intros i Hi. rewrite to_signed_11_high by lia.
    rewrite driver_field_bits by lia. reflexivity.
  - apply to_signed_11_range. exact Hr.
Qed.

End Properties.

(** ** The properties at concrete frames *)

Lemma tx_denies_torque_above_max_steer_witness :
  desired_torque_of steer_m2048 = -2048
  /\ fst (subaru_legacy_tx_hook ref_engaged steer_m2048 1000) = 0
  /\ fst (subaru_legacy_tx_hook ref_init steer_m2048 1000) = 0.
Proof.
  split; [reflexivity|]. split.
  - apply (tx_denies_torque_above_max_steer ref_engaged steer_m2048 1000);
      reflexivity.
  - apply (tx_denies_torque_above_max_steer ref_init steer_m2048 1000);
      reflexivity.
Defined.

Lemma tx_denies_torque_without_controls_witness :
  desired_torque_of steer_p1 = 1
  /\ fst (subaru_legacy_tx_hook ref_init steer_p1 1000) = 0.
Proof.
  split; [reflexivity|].
  apply (tx_denies_torque_without_controls ref_init steer_p1 1000);
    [reflexivity | reflexivity | discriminate].
Defined.

Lemma tx_resets_limiter_witness :
  limiter (snd (subaru_legacy_tx_hook ref_engaged steer_m2048 1000))
  = (0, 0, 1000).
Proof.
  destruct (tx_resets_limiter ref_engaged steer_m2048 1000)
    as (H1 & H2 & H3).
  - reflexivity.
  - right. left. reflexivity.
  - unfold limiter. rewrite H1, H2, H3. reflexivity.
Defined.

Lemma relay_malfunction_blocks_all_witness :
  fst (subaru_legacy_tx_hook ref_engaged_fault steer_m1 1000) = 0
  /\ subaru_legacy_fwd_hook ref_engaged_fault 0 steer_m1 = -1.
Proof.
  apply (relay_malfunction_blocks_all ref_engaged_fault steer_m1 1000 0).
  reflexivity.
Defined.

Lemma fwd_routing_witness :
  subaru_legacy_fwd_hook ref_engaged 0 (cruise_frame 2) = 2
  /\ subaru_legacy_fwd_hook ref_engaged 2 steer_m1 = -1
  /\ subaru_legacy_fwd_hook ref_engaged 1 steer_m1 = -1.
Proof.
  split; [| split].
  - destruct (fwd_routing ref_engaged (cruise_frame 2) 0)
      as (Hfwd & _); [reflexivity|].
    apply Hfwd; [reflexivity | discriminate].
  - destruct (fwd_routing ref_engaged steer_m1 2)
      as (_ & _ & _ & Hblock & _); [reflexivity|].
    apply Hblock; [reflexivity | right; reflexivity].
  - destruct (fwd_routing ref_engaged steer_m1 1)
      as (_ & _ & _ & _ & Hother); [reflexivity|].
    apply Hother; discriminate.
Defined.

Lemma cruise_edge_drives_controls_witness :
  controls_allowed (rx_run ref_init [cruise_frame 0; cruise_frame 2]) = true
  /\ controls_allowed
       (rx_run ref_cruise_on_controls_off [cruise_frame 2]) = false
  /\ controls_allowed (rx_run ref_engaged [cruise_frame 0]) = false
  /\ cruise_engaged_prev (rx_run ref_init [cruise_frame 2]) = true.
Proof.
  split; [| split; [| split]].
  - destruct (cruise_edge_drives_controls ref_init [cruise_frame 0]
                (cruise_frame 2)) as (_ & _ & _ & Hrise & _).
    + repeat constructor.
    + cbn. repeat split.
    + apply Hrise; reflexivity.
  - destruct (cruise_edge_drives_controls ref_cruise_on_controls_off []
                (cruise_frame 2)) as (_ & _ & _ & _ & Hkeep).
    + repeat constructor.
    + cbn. repeat split.
    + cbn [app] in Hkeep. rewrite Hkeep; reflexivity.
  - destruct (cruise_edge_drives_controls ref_engaged []
                (cruise_frame 0)) as (_ & _ & Hoff & _).
    + repeat constructor.
    + cbn. repeat split.
    + apply Hoff. reflexivity.
  - destruct (cruise_edge_drives_controls ref_init []
                (cruise_frame 2)) as (_ & Hprev & _).
    + repeat constructor.
    + cbn. repeat split.
    + cbn [app] in Hprev. rewrite Hprev. reflexivity.
Defined.

Lemma rx_invalid_keeps_state_witness :
  fst (subaru_legacy_rx_hook ref_stale (cruise_frame 2)) = false
  /\ controls_allowed (snd (subaru_legacy_rx_hook ref_stale (cruise_frame 2)))
     = false
  /\ cruise_engaged_prev
       (snd (subaru_legacy_rx_hook ref_stale (cruise_frame 2))) = false.
Proof.
  destruct (rx_invalid_keeps_state ref_stale (cruise_frame 2))
    as (Hv & _ & Hca & Hcep & _).
  - reflexivity.
  - split; [exact Hv | split; [exact Hca | exact Hcep]].
Defined.

Lemma tx_state_update_ignores_denial_witness :
  fst (subaru_legacy_tx_hook ref_engaged steer_m1 1000) = 1
  /\ fst (subaru_legacy_tx_hook ref_engaged_fault steer_m1_off_list 1000) = 0
  /\ limiter
       (snd (subaru_legacy_tx_hook ref_engaged_fault steer_m1_off_list 1000))
     = (-1, 0, 0)
  /\ limiter
       (snd (subaru_legacy_tx_hook ref_engaged_fault steer_m1_off_list
               250001))
     = (-1, -1, 250001)
  /\ limiter
       (snd (subaru_legacy_tx_hook ref_engaged_fault steer_m2048_off_list
               1000))
     = (0, 0, 1000)
  /\ same_module_state
       (snd (subaru_legacy_tx_hook ref_engaged steer_m1 1000))
       (snd (subaru_legacy_tx_hook ref_engaged_fault steer_m1_off_list 1000)).
Proof.
  assert (Hsame : same_module_state ref_engaged ref_engaged_fault).
  { unfold same_module_state. cbn. repeat split; reflexivity. }
  split; [reflexivity|].
  destruct (tx_state_update_ignores_denial ref_engaged ref_engaged_fault
              steer_m1 steer_m1_off_list 1000)
    as (Hv & _ & Hkeep & _ & Hs & _);
    [reflexivity | reflexivity | reflexivity | exact Hsame
     | left; reflexivity |].
  destruct (tx_state_update_ignores_denial ref_engaged ref_engaged_fault
              steer_m1 steer_m1_off_list 250001)
    as (_ & _ & Hroll & _);
    [reflexivity | reflexivity | reflexivity | exact Hsame
     | left; reflexivity |].
  destruct (tx_state_update_ignores_denial ref_engaged ref_engaged_fault
              steer_m2048 steer_m2048_off_list 1000)
    as (_ & Hreset & _);
    [reflexivity | reflexivity | reflexivity | exact Hsame
     | left; reflexivity |].
  split; [exact Hv|].
  split; [rewrite Hkeep; reflexivity|].
  split; [rewrite Hroll; reflexivity|].
  split; [apply Hreset; right; left; reflexivity | exact Hs].
Defined.

Lemma tx_rt_anchor_rolls_forward_witness :
  (get_ts_elapsed 250001 (ts_last ref_engaged) = 250001
   /\ rt_torque_last (snd (subaru_legacy_tx_hook ref_engaged steer_m1 250001))
      = -1
   /\ ts_last (snd (subaru_legacy_tx_hook ref_engaged steer_m1 250001))
      = 250001)
  /\ (get_ts_elapsed 250000 (ts_last ref_engaged) = 250000
      /\ rt_torque_last
           (snd (subaru_legacy_tx_hook ref_engaged steer_m1 250000)) = 0
      /\ ts_last (snd (subaru_legacy_tx_hook ref_engaged steer_m1 250000))
         = 0)
  /\ (rt_torque_last
        (snd (subaru_legacy_tx_hook ref_engaged steer_m2048 300000)) = 0
      /\ ts_last (snd (subaru_legacy_tx_hook ref_engaged steer_m2048 300000))
         = 300000).
Proof.
  split; [| split].
  - destruct (tx_rt_anchor_rolls_forward ref_engaged steer_m1 250001)
      as (_ & Hclean & _); [reflexivity|].
    destruct Hclean as (_ & _ & Hroll & _); [reflexivity ..|].
    split; [reflexivity|]. apply Hroll. reflexivity.
  - destruct (tx_rt_anchor_rolls_forward ref_engaged steer_m1 250000)
      as (_ & Hclean & _); [reflexivity|].
    destruct Hclean as (_ & _ & _ & Hkeep); [reflexivity ..|].
    split; [reflexivity|]. apply Hkeep. discriminate.
  - destruct (tx_rt_anchor_rolls_forward ref_engaged steer_m2048 300000)
      as (_ & _ & Hreset); [reflexivity|].
    destruct Hreset as (_ & Hr & Hts); [right; left; reflexivity|].
    split; assumption.
Defined.

Lemma rx_driver_torque_sample_witness :
  exists v : Z,
    torque_driver
      (snd (subaru_legacy_rx_hook ref_init (driver_torque_frame 0x80 0x80)))
    = v
    /\ Z.testbit v 2 = true
    /\ Z.testbit v 10 = true
    /\ -1024 <= v < 1024.
Proof.
  destruct (rx_driver_torque_sample ref_init (driver_torque_frame 0x80 0x80))
    as (v & Hv & Hlow & Hmid & _ & Hr).
  - reflexivity.
  - reflexivity.
  - reflexivity.
  - exists v. split; [exact Hv|]. split; [| split; [| exact Hr]].
    + rewrite (Hlow 2) by lia. reflexivity.
    + rewrite (Hmid 10) by lia. reflexivity.
Defined.

(** ** Where the code departs from the wording *)

(** C8 as worded fails in three ways, each on a steering command sent at
    least [SUBARU_L_RT_INTERVAL] microseconds after [ts_last]:
    - controls not allowed, torque +1: the anchor is reset to 0, not rolled
      forward to +1;
    - controls allowed, torque -2048: the absolute-bound check fires and the
      anchor is reset to 0;
    - controls allowed, torque -1, no check firing, exactly 250000
      microseconds elapsed: the test is a strict [>], nothing rolls. *)
Lemma tx_rt_anchor_as_worded_counterexample :
  (GET_ADDR steer_p1 = 0x164
   /\ SUBARU_L_RT_INTERVAL <= get_ts_elapsed 300000 (ts_last ref_init)
   /\ controls_allowed ref_init = false
   /\ desired_torque_of steer_p1 = 1
   /\ rt_torque_last (snd (subaru_legacy_tx_hook ref_init steer_p1 300000))
      <> desired_torque_of steer_p1)
  /\ (GET_ADDR steer_m2048 = 0x164
      /\ SUBARU_L_RT_INTERVAL <= get_ts_elapsed 300000 (ts_last ref_engaged)
      /\ controls_allowed ref_engaged = true
      /\ desired_torque_of steer_m2048 = -2048
      /\ rt_torque_last
           (snd (subaru_legacy_tx_hook ref_engaged steer_m2048 300000))
         <> desired_torque_of steer_m2048)
  /\ (GET_ADDR steer_m1 = 0x164
      /\ SUBARU_L_RT_INTERVAL <= get_ts_elapsed 250000 (ts_last ref_engaged)
      /\ controls_allowed ref_engaged = true
      /\ subaru_legacy_tx_hook ref_engaged steer_m1 250000
         = (1, set_desired_torque_last ref_engaged (-1))
      /\ desired_torque_of steer_m1 = -1
      /\ rt_torque_last
           (snd (subaru_legacy_tx_hook ref_engaged steer_m1 250000))
         <> desired_torque_of steer_m1
      /\ ts_last (snd (subaru_legacy_tx_hook ref_engaged steer_m1 250000))
         <> 250000).
Proof.
  repeat split; try reflexivity; vm_compute; discriminate.
Qed.

(** C9 as worded fails on a driver-torque frame whose byte 3 is 0x10 (only
    bit 4 set) and whose byte 4 is 0: the low three bits of the high nibble
    of byte 3 are 001, so the worded field is 1, but the code shifts byte 3
    right by 5 and feeds 0 to the tracker. *)
Lemma rx_driver_torque_as_worded_counterexample :
  GET_ADDR (driver_torque_frame 0x10 0) = 0x371
  /\ GET_BUS (driver_torque_frame 0x10 0) = 0
  /\ fst (subaru_legacy_rx_hook ref_init (driver_torque_frame 0x10 0)) = true
  /\ GET_BYTE (driver_torque_frame 0x10 0) 3 = 0x10
  /\ GET_BYTE (driver_torque_frame 0x10 0) 4 = 0
  /\ spec_driver_torque (driver_torque_frame 0x10 0) = 1
  /\ torque_driver
       (snd (subaru_legacy_rx_hook ref_init (driver_torque_frame 0x10 0)))
     = 0
  /\ torque_driver
       (snd (subaru_legacy_rx_hook ref_init (driver_torque_frame 0x10 0)))
     <> update_sample (torque_driver ref_init)
          (spec_driver_torque (driver_torque_frame 0x10 0)).
Proof.
  repeat split; try reflexivity. vm_compute. discriminate.
Qed.

(** ** Further behaviour of the hooks *)

(** Reduces projections of states built by the setters. *)
Ltac state_simpl :=
  cbn [torque_driver controls_allowed cruise_engaged_prev vehicle_moving
       brake_pressed gas_pressed desired_torque_last rt_torque_last ts_last
       subaru_l_flip_driver_torque amb
       set_torque_driver set_controls_allowed set_cruise_engaged_prev
       set_vehicle_moving set_brake_pressed set_gas_pressed
       set_desired_torque_last set_rt_torque_last set_ts_last
       set_flip_driver_torque set_amb
       fst snd orb andb negb] in *.

Section Behaviour.
Context {sample_t ambient : Type} {collab : Collaborators sample_t ambient}.

Local Abbreviation St := (State sample_t ambient).

Arguments desired_torque_of : simpl never.
Arguments get_ts_elapsed : simpl never.
Arguments max_limit_check : simpl never.
Arguments msg_allowed : simpl never.

(** *** Receive hook: what each branch writes *)

(** The receive hook, by cases on the validator's verdict and the bus. *)
Lemma rx_hook_unfold (st : St) (f : CAN_FIFOMailBox_TypeDef) :
  let va := addr_safety_check f subaru_l_rx_checks (amb st) in
  let s0 := set_amb st (snd va) in
  subaru_legacy_rx_hook st f =
    if fst va && (GET_BUS f =? 0) then
      let s1 := if GET_ADDR f =? 0x371 then rx_driver_torque s0 f else s0 in
      let s2 := if GET_ADDR f =? 0x144 then rx_cruise s1 f else s1 in
      let s3 := if GET_ADDR f =? 0xD4 then rx_wheel_speed s2 f else s2 in
      let s4 := if GET_ADDR f =? 0xD1 then rx_brake s3 f else s3 in
      let s5 := if GET_ADDR f =? 0x140 then rx_gas s4 f else s4 in
      (fst va,
       set_amb s5 (generic_rx_checks (GET_ADDR f =? 0x164) (amb s5)))
    else (fst va, s0).
Proof.
  unfold subaru_legacy_rx_hook.
  destruct (addr_safety_check f subaru_l_rx_checks (amb st)) as [valid a].
  reflexivity.
Qed.

Lemma same_module_state_refl (st : St) : same_module_state st st.
Proof. unfold same_module_state. repeat split; reflexivity. Qed.

Lemma same_module_state_trans (s1 s2 s3 : St) :
  same_module_state s1 s2 -> same_module_state s2 s3 ->
  same_module_state s1 s3.
Proof.
  unfold same_module_state.
  intros (? & ? & ? & ? & ? & ? & ? & ? & ? & ?)
         (? & ? & ? & ? & ? & ? & ? & ? & ? & ?).
  repeat split; congruence.
Qed.

Lemma same_module_state_set_amb (st : St) (a : ambient) :
  same_module_state (set_amb st a) st.
Proof.
  unfold same_module_state. destruct st. state_simpl.
  repeat split; reflexivity.
Qed.

(** X1: on an accepted wheel-speed frame (address 0xD4, bus 0) the vehicle
    counts as moving exactly when the two corner speeds add up to at least
    42: the average is an integer division by 2 and must exceed 20, so a sum
    of 41 still reads as standstill.  The sum never leaves [0, 131070]. *)
Theorem rx_wheel_speed_threshold (st : St) (f : CAN_FIFOMailBox_TypeDef) :
  GET_ADDR f = 0xD4 ->
  GET_BUS f = 0 ->
  fst (subaru_legacy_rx_hook st f) = true ->
  vehicle_moving (snd (subaru_legacy_rx_hook st f)) =
    (42 <=? wheel_speed_FR f + wheel_speed_RL f)
  /\ 0 <= wheel_speed_FR f + wheel_speed_RL f <= 131070.
Proof.
  intros Ha Hb. rewrite rx_hook_unfold. cbv zeta.
  destruct (addr_safety_check f subaru_l_rx_checks (amb st)) as [valid a].
  rewrite Hb, Ha. cbn [Z.eqb Pos.eqb fst snd andb].
  destruct valid; cbn [fst snd]; [intros _ | discriminate].
  assert (HFR : 0 <= wheel_speed_FR f < 65536).
  { unfold wheel_speed_FR. change 0xFFFF with (Z.ones 16).
    rewrite Z.land_ones by lia. apply Z.mod_pos_bound. lia. }
  assert (HRL : 0 <= wheel_speed_RL f < 65536).
  { unfold wheel_speed_RL. change 0xFFFF with (Z.ones 16).
    rewrite Z.land_ones by lia. apply Z.mod_pos_bound. lia. }
  split; [| lia].
  unfold rx_wheel_speed. fold (wheel_speed_FR f) (wheel_speed_RL f).
  destruct st. state_simpl.
  set (s := wheel_speed_FR f + wheel_speed_RL f) in *.
  rewrite Z.quot_div_nonneg by lia.
  unfold SUBARU_L_STANDSTILL_THRSLD.
  pose proof (Z.div_mod s 2 ltac:(lia)) as Hdm.
  pose proof (Z.mod_pos_bound s 2 ltac:(lia)) as Hmb.
  destruct (Z.ltb_spec 20 (s / 2)), (Z.leb_spec 42 s); try reflexivity; lia.
Qed.

(** The cruise branch writes [controls_allowed] and [cruise_engaged_prev]
    only. *)
Lemma rx_cruise_writes (st : St) (f : CAN_FIFOMailBox_TypeDef) :
  rx_cruise st f =
    set_cruise_engaged_prev
      (set_controls_allowed st
         (cruise_engaged_of f
          && (negb (cruise_engaged_prev st) || controls_allowed st)))
      (cruise_engaged_of f).
Proof.
  unfold rx_cruise. fold (cruise_engaged_of f).
  destruct st as [td ca cep vm bp gp dtl rtl tsl flip a]. state_simpl.
  destruct (cruise_engaged_of f), cep, ca; reflexivity.
Qed.

(** Splits on every address test of the receive hook and on the verdict. *)
Ltac rx_cases f :=
  rewrite rx_hook_unfold; cbv zeta;
  destruct (addr_safety_check f subaru_l_rx_checks _) as [[|] ?a];
  cbn [fst snd andb];
  [ destruct (GET_BUS f =? 0) eqn:?Hbus;
    [ destruct (GET_ADDR f =? 0x371) eqn:?H371;
      destruct (GET_ADDR f =? 0x144) eqn:?H144;
      destruct (GET_ADDR f =? 0xD4) eqn:?HD4;
      destruct (GET_ADDR f =? 0xD1) eqn:?HD1;
      destruct (GET_ADDR f =? 0x140) eqn:?H140
    | ]
  | ];
  rewrite ?rx_cruise_writes;
  unfold rx_driver_torque, rx_wheel_speed, rx_brake, rx_gas;
  state_simpl.

(** Closes a goal [addr <> k -> _] when the test [addr =? k] succeeded. *)
Ltac addr_absurd :=
  match goal with
  | Hne : ?x <> ?k, Heq : (?x =? ?k) = true |- _ =>
      exfalso; apply Hne; apply Z.eqb_eq; exact Heq
  end.

(** X2: the receive hook never writes the limiter or the flip flag, and
    each of its other variables is written on one address only: the driver
    torque sample on 0x371, [controls_allowed] and [cruise_engaged_prev] on
    0x144, [vehicle_moving] on 0xD4, [brake_pressed] on 0xD1, [gas_pressed]
    on 0x140. *)
Theorem rx_writes_by_address (st : St) (f : CAN_FIFOMailBox_TypeDef) :
  let st' := snd (subaru_legacy_rx_hook st f) in
  limiter st' = limiter st
  /\ subaru_l_flip_driver_torque st' = subaru_l_flip_driver_torque st
  /\ (GET_ADDR f <> 0x371 -> torque_driver st' = torque_driver st)
  /\ (GET_ADDR f <> 0x144 ->
      controls_allowed st' = controls_allowed st
      /\ cruise_engaged_prev st' = cruise_engaged_prev st)
  /\ (GET_ADDR f <> 0xD4 -> vehicle_moving st' = vehicle_moving st)
  /\ (GET_ADDR f <> 0xD1 -> brake_pressed st' = brake_pressed st)
  /\ (GET_ADDR f <> 0x140 -> gas_pressed st' = gas_pressed st).
Proof.
  intros st'. subst st'. unfold limiter.
  destruct st as [td ca cep vm bp gp dtl rtl tsl flip a0].
  rx_cases f;
    repeat match goal with
           | |- _ /\ _ => split
           | |- _ -> _ => intro
           end;
    try reflexivity; addr_absurd.
Qed.

(** X3: a frame received on a bus other than 0 changes no variable of the
    module, and [generic_rx_checks] is not run for it: the ambient state is
    the one the address validator left. *)
Theorem rx_ignores_other_buses (st : St) (f : CAN_FIFOMailBox_TypeDef) :
  GET_BUS f <> 0 ->
  snd (subaru_legacy_rx_hook st f) =
    set_amb st (snd (addr_safety_check f subaru_l_rx_checks (amb st)))
  /\ same_module_state (snd (subaru_legacy_rx_hook st f)) st.
Proof.
  intros Hb. apply Z.eqb_neq in Hb.
  assert (Heq : snd (subaru_legacy_rx_hook st f) =
    set_amb st (snd (addr_safety_check f subaru_l_rx_checks (amb st)))).
  { rewrite rx_hook_unfold. cbv zeta. rewrite Hb, andb_false_r.
    reflexivity. }
  split; [exact Heq|]. rewrite Heq. apply same_module_state_set_amb.
Qed.

(** X4: an accepted bus-0 frame whose address is none of 0x371, 0x144, 0xD4,
    0xD1, 0x140 changes no variable of the module; it only reaches
    [generic_rx_checks], flagged as a steering-command echo exactly when its
    address is 0x164. *)
Theorem rx_unknown_address (st : St) (f : CAN_FIFOMailBox_TypeDef) :
  GET_BUS f = 0 ->
  fst (subaru_legacy_rx_hook st f) = true ->
  GET_ADDR f <> 0x371 -> GET_ADDR f <> 0x144 -> GET_ADDR f <> 0xD4 ->
  GET_ADDR f <> 0xD1 -> GET_ADDR f <> 0x140 ->
  snd (subaru_legacy_rx_hook st f) =
    set_amb st
      (generic_rx_checks (GET_ADDR f =? 0x164)
         (snd (addr_safety_check f subaru_l_rx_checks (amb st))))
  /\ same_module_state (snd (subaru_legacy_rx_hook st f)) st.
Proof.
  intros Hb Hv N1 N2 N3 N4 N5.
  apply Z.eqb_neq in N1, N2, N3, N4, N5.
  assert (Heq : snd (subaru_legacy_rx_hook st f) =
    set_amb st
      (generic_rx_checks (GET_ADDR f =? 0x164)
         (snd (addr_safety_check f subaru_l_rx_checks (amb st))))).
  { revert Hv. rewrite rx_hook_unfold. cbv zeta.
    rewrite Hb, N1, N2, N3, N4, N5.
    destruct (addr_safety_check f subaru_l_rx_checks (amb st)) as [valid a].
    cbn [fst snd Z.eqb andb]. destruct valid; cbn [fst snd];
      [intros _ | discriminate].
    destruct st. reflexivity. }
  split; [exact Heq|]. rewrite Heq. apply same_module_state_set_amb.
Qed.

(** *** Transmit hook: verdict and limiter *)

(** The violation flag of the steering block, in closed form. *)
Lemma steer_violation_closed (st : St) (f : CAN_FIFOMailBox_TypeDef) (ts : Z) :
  fst (steer_cmd_checks st f ts) =
    if controls_allowed st
    then max_limit_check (desired_torque_of f)
           SUBARU_L_MAX_STEER (- SUBARU_L_MAX_STEER)
         || driver_limit_check (desired_torque_of f) (desired_torque_last st)
              (torque_driver st) SUBARU_L_MAX_STEER SUBARU_L_MAX_RATE_UP
              SUBARU_L_MAX_RATE_DOWN SUBARU_L_DRIVER_TORQUE_ALLOWANCE
              SUBARU_L_DRIVER_TORQUE_FACTOR
         || rt_rate_limit_check (desired_torque_of f) (rt_torque_last st)
              SUBARU_L_MAX_RT_DELTA
    else negb (desired_torque_of f =? 0).
Proof.
  destruct st as [td ca cep vm bp gp dtl rtl tsl flip a].
  unfold steer_cmd_checks, steer_checks_allowed. state_simpl.
  destruct ca; state_simpl.
  - destruct (SUBARU_L_RT_INTERVAL <? get_ts_elapsed ts tsl); state_simpl;
      destruct (_ || _ || _); reflexivity.
  - destruct (desired_torque_of f =? 0); reflexivity.
Qed.

(** The state the steering block leaves, in closed form: it writes the
    limiter triple and nothing else. *)
Lemma steer_state_closed (st : St) (f : CAN_FIFOMailBox_TypeDef) (ts : Z) :
  let d := desired_torque_of f in
  let ok := controls_allowed st && negb (fst (steer_cmd_checks st f ts)) in
  let roll := SUBARU_L_RT_INTERVAL <? get_ts_elapsed ts (ts_last st) in
  snd (steer_cmd_checks st f ts) =
    set_ts_last
      (set_rt_torque_last
         (set_desired_torque_last st (if ok then d else 0))
         (if ok then (if roll then d else rt_torque_last st) else 0))
      (if ok then (if roll then ts else ts_last st) else ts).
Proof.
  cbv zeta. rewrite steer_violation_closed.
  destruct st as [td ca cep vm bp gp dtl rtl tsl flip a].
  unfold steer_cmd_checks, steer_checks_allowed. state_simpl.
  destruct ca; state_simpl.
  - destruct (SUBARU_L_RT_INTERVAL <? get_ts_elapsed ts tsl); state_simpl;
      destruct (max_limit_check _ _ _), (driver_limit_check _ _ _ _ _ _ _ _),
        (rt_rate_limit_check _ _ _); reflexivity.
  - destruct (desired_torque_of f =? 0); reflexivity.
Qed.

(** The transmit hook, by cases on the address. *)
Lemma tx_hook_unfold (st : St) (f : CAN_FIFOMailBox_TypeDef) (ts : Z) :
  let gate :=
    if relay_malfunction (amb st) then 0
    else if msg_allowed f SUBARU_L_TX_MSGS then 1 else 0 in
  subaru_legacy_tx_hook st f ts =
    if GET_ADDR f =? 0x164
    then (if fst (steer_cmd_checks st f ts) then 0 else gate,
          snd (steer_cmd_checks st f ts))
    else (gate, st).
Proof.
  unfold subaru_legacy_tx_hook.
  destruct (steer_cmd_checks st f ts) as [v st'].
  destruct (relay_malfunction (amb st)), (msg_allowed f SUBARU_L_TX_MSGS),
    (GET_ADDR f =? 0x164), v; reflexivity.
Qed.

(** X5: the transmit hook never writes the variables the receive hook
    owns, the flip flag or the ambient state, whatever the frame; and a
    frame whose address is not 0x164 leaves the whole state untouched. *)
Theorem tx_writes_limiter_only
    (st : St) (f : CAN_FIFOMailBox_TypeDef) (ts : Z) :
  let st' := snd (subaru_legacy_tx_hook st f ts) in
  torque_driver st' = torque_driver st
  /\ controls_allowed st' = controls_allowed st
  /\ cruise_engaged_prev st' = cruise_engaged_prev st
  /\ vehicle_moving st' = vehicle_moving st
  /\ brake_pressed st' = brake_pressed st
  /\ gas_pressed st' = gas_pressed st
  /\ subaru_l_flip_driver_torque st' = subaru_l_flip_driver_torque st
  /\ amb st' = amb st
  /\ (GET_ADDR f <> 0x164 -> st' = st).
Proof.
  intros st'. subst st'. rewrite tx_hook_unfold. cbv zeta.
  destruct (GET_ADDR f =? 0x164) eqn:Ha; cbn [snd].
  - rewrite steer_state_closed. cbv zeta. destruct st. state_simpl.
    repeat split; try reflexivity.
    intros Hne. exfalso. apply Hne. apply Z.eqb_eq. exact Ha.
  - repeat split; reflexivity.
Qed.

(** X6: the verdict is 0 or 1, and it is 1 exactly when the frame is on the
    allow-list, the relay latch is clear and, for a steering command, no
    violation is raised: with controls allowed none of the three checks
    fires, with controls not allowed the torque is 0. *)
Theorem tx_verdict_characterised
    (st : St) (f : CAN_FIFOMailBox_TypeDef) (ts : Z) :
  (fst (subaru_legacy_tx_hook st f ts) = 0
   \/ fst (subaru_legacy_tx_hook st f ts) = 1)
  /\ (fst (subaru_legacy_tx_hook st f ts) = 1 <->
      msg_allowed f SUBARU_L_TX_MSGS = true
      /\ relay_malfunction (amb st) = false
      /\ (GET_ADDR f = 0x164 ->
          if controls_allowed st
          then max_limit_check (desired_torque_of f)
                 SUBARU_L_MAX_STEER (- SUBARU_L_MAX_STEER) = false
               /\ driver_limit_check (desired_torque_of f)
                    (desired_torque_last st) (torque_driver st)
                    SUBARU_L_MAX_STEER SUBARU_L_MAX_RATE_UP
                    SUBARU_L_MAX_RATE_DOWN SUBARU_L_DRIVER_TORQUE_ALLOWANCE
                    SUBARU_L_DRIVER_TORQUE_FACTOR = false
               /\ rt_rate_limit_check (desired_torque_of f)
                    (rt_torque_last st) SUBARU_L_MAX_RT_DELTA = false
          else desired_torque_of f = 0)).
Proof.
  rewrite tx_hook_unfold. cbv zeta. rewrite steer_violation_closed.
  destruct (GET_ADDR f =? 0x164) eqn:Ha; cbn [fst].
  - apply Z.eqb_eq in Ha.
    destruct (controls_allowed st).
    + destruct (max_limit_check _ _ _), (driver_limit_check _ _ _ _ _ _ _ _),
        (rt_rate_limit_check _ _ _),
        (relay_malfunction (amb st)), (msg_allowed f SUBARU_L_TX_MSGS);
        cbn [orb];
        (split; [auto |
                 split; [intros; repeat split; auto; discriminate
                        | intros (? & ? & Hc); try discriminate;
                          try reflexivity;
                          destruct (Hc Ha) as (? & ? & ?); discriminate]]).
    + destruct (Z.eqb_spec (desired_torque_of f) 0) as [Hz | Hnz];
        destruct (relay_malfunction (amb st)),
          (msg_allowed f SUBARU_L_TX_MSGS); cbn [negb];
        (split; [auto |
                 split; [intros; repeat split; auto; discriminate
                        | intros (? & ? & Hc); try discriminate;
                          try reflexivity;
                          exfalso; apply Hnz; exact (Hc Ha)]]).
  - apply Z.eqb_neq in Ha.
    destruct (relay_malfunction (amb st)), (msg_allowed f SUBARU_L_TX_MSGS);
      (split; [auto |
               split; [intros; repeat split; auto; try discriminate;
                       intros; contradiction
                      | intros (? & ? & _); try discriminate; reflexivity]]).
Qed.

(** A verdict of 1 needs the allow-list and a clear relay latch. *)
Lemma tx_accept_gate (st : St) (f : CAN_FIFOMailBox_TypeDef) (ts : Z) :
  fst (subaru_legacy_tx_hook st f ts) = 1 ->
  msg_allowed f SUBARU_L_TX_MSGS = true
  /\ relay_malfunction (amb st) = false
  /\ (GET_ADDR f = 0x164 -> fst (steer_cmd_checks st f ts) = false).
Proof.
  rewrite tx_hook_unfold. cbv zeta.
  destruct (GET_ADDR f =? 0x164) eqn:Ha; cbn [fst];
    destruct (relay_malfunction (amb st)), (msg_allowed f SUBARU_L_TX_MSGS);
    try destruct (fst (steer_cmd_checks st f ts));
    intros Hv; try discriminate; repeat split; try reflexivity.
  intros Ha'. apply Z.eqb_neq in Ha. contradiction.
Qed.

(** The allow-list, entry by entry. *)
Lemma msg_allowed_listed (f : CAN_FIFOMailBox_TypeDef) :
  msg_allowed f SUBARU_L_TX_MSGS = true <->
  (GET_ADDR f = 0x161 /\ GET_BUS f = 0 /\ GET_LEN f = 8)
  \/ (GET_ADDR f = 0x164 /\ GET_BUS f = 0 /\ GET_LEN f = 8)
  \/ (GET_ADDR f = 0x140 /\ GET_BUS f = 2 /\ GET_LEN f = 8).
Proof.
  unfold msg_allowed, SUBARU_L_TX_MSGS. cbn [existsb m_addr m_bus m_len].
  rewrite !orb_true_iff, !andb_true_iff, !Z.eqb_eq. intuition discriminate.
Qed.

(** X7: whatever the state and the payload, the transmit hook lets a frame
    through only as address 0x161 on bus 0, address 0x164 on bus 0 or address
    0x140 on bus 2, each with length 8. *)
Theorem tx_accepts_listed_frames_only
    (st : St) (f : CAN_FIFOMailBox_TypeDef) (ts : Z) :
  fst (subaru_legacy_tx_hook st f ts) = 1 ->
  (GET_ADDR f = 0x161 /\ GET_BUS f = 0 /\ GET_LEN f = 8)
  \/ (GET_ADDR f = 0x164 /\ GET_BUS f = 0 /\ GET_LEN f = 8)
  \/ (GET_ADDR f = 0x140 /\ GET_BUS f = 2 /\ GET_LEN f = 8).
Proof.
  intros Hv. apply tx_accept_gate in Hv as (Hal & _ & _).
  apply msg_allowed_listed. exact Hal.
Qed.

(** X8: the two other allow-listed frames, 0x161 on bus 0 and 0x140 on bus
    2 with length 8, are not content-checked: the verdict is 1 unless the
    relay latch is set, for every payload and whether or not controls are
    allowed, and the state is left as it was. *)
Theorem tx_passes_throttle_frames
    (st : St) (f : CAN_FIFOMailBox_TypeDef) (ts : Z) :
  (GET_ADDR f = 0x161 /\ GET_BUS f = 0)
  \/ (GET_ADDR f = 0x140 /\ GET_BUS f = 2) ->
  GET_LEN f = 8 ->
  subaru_legacy_tx_hook st f ts =
    (if relay_malfunction (amb st) then 0 else 1, st).
Proof.
  intros Hab Hl.
  assert (Hal : msg_allowed f SUBARU_L_TX_MSGS = true).
  { apply msg_allowed_listed. intuition. }
  assert (Ha : (GET_ADDR f =? 0x164) = false).
  { apply Z.eqb_neq. destruct Hab as [[-> _] | [-> _]]; discriminate. }
  rewrite tx_hook_unfold. cbv zeta. rewrite Ha, Hal. reflexivity.
Qed.

(** X9: with controls not allowed, a steering command carrying torque 0 on
    the allow-listed bus and length is let through (relay latch clear), and
    the limiter is re-armed at [(0, 0, ts)]. *)
Theorem tx_zero_torque_without_controls
    (st : St) (f : CAN_FIFOMailBox_TypeDef) (ts : Z) :
  GET_ADDR f = 0x164 -> GET_BUS f = 0 -> GET_LEN f = 8 ->
  relay_malfunction (amb st) = false ->
  controls_allowed st = false ->
  desired_torque_of f = 0 ->
  fst (subaru_legacy_tx_hook st f ts) = 1
  /\ limiter (snd (subaru_legacy_tx_hook st f ts)) = (0, 0, ts).
Proof.
  intros Ha Hb Hl Hrm Hca Hd.
  assert (Hal : msg_allowed f SUBARU_L_TX_MSGS = true).
  { apply msg_allowed_listed. intuition. }
  rewrite tx_hook_unfold. cbv zeta. rewrite Ha, Hal, Hrm.
  cbn [Z.eqb Pos.eqb fst snd].
  rewrite steer_state_closed. cbv zeta.
  rewrite steer_violation_closed, Hca, Hd. cbn [Z.eqb negb andb].
  destruct st. split; reflexivity.
Qed.

(** X10: with controls allowed, a steering command that raises no
    violation within the current window (at most [SUBARU_L_RT_INTERVAL]
    microseconds since [ts_last]) records its torque as
    [desired_torque_last] and keeps the real-time anchor and its timestamp
    as they were. *)
Theorem tx_keeps_anchor_within_window
    (st : St) (f : CAN_FIFOMailBox_TypeDef) (ts : Z) :
  GET_ADDR f = 0x164 ->
  controls_allowed st = true ->
  fst (steer_cmd_checks st f ts) = false ->
  get_ts_elapsed ts (ts_last st) <= SUBARU_L_RT_INTERVAL ->
  limiter (snd (subaru_legacy_tx_hook st f ts)) =
    (desired_torque_of f, rt_torque_last st, ts_last st).
Proof.
  intros Ha Hca Hv Hel.
  assert (Hroll : (SUBARU_L_RT_INTERVAL <? get_ts_elapsed ts (ts_last st))
                  = false) by (apply Z.ltb_ge; exact Hel).
  rewrite tx_hook_unfold. cbv zeta. rewrite Ha. cbn [Z.eqb Pos.eqb snd].
  rewrite steer_state_closed. cbv zeta. rewrite Hv, Hca, Hroll.
  destruct st. reflexivity.
Qed.

(** X11: after any steering command the anchor timestamp is fresh: measured
    at the time of the call, at most [SUBARU_L_RT_INTERVAL] microseconds
    have elapsed since the [ts_last] the call leaves behind. *)
Theorem tx_anchor_never_stale
    (st : St) (f : CAN_FIFOMailBox_TypeDef) (ts : Z) :
  GET_ADDR f = 0x164 ->
  get_ts_elapsed ts (ts_last (snd (subaru_legacy_tx_hook st f ts)))
  <= SUBARU_L_RT_INTERVAL.
Proof.
  intros Ha.
  assert (Hself : get_ts_elapsed ts ts <= SUBARU_L_RT_INTERVAL).
  { unfold get_ts_elapsed. rewrite Z.sub_diag. cbn. discriminate. }
  rewrite tx_hook_unfold. cbv zeta. rewrite Ha. cbn [Z.eqb Pos.eqb snd].
  rewrite steer_state_closed. cbv zeta.
  destruct (controls_allowed st && negb (fst (steer_cmd_checks st f ts)));
    [destruct (Z.ltb_spec SUBARU_L_RT_INTERVAL
                 (get_ts_elapsed ts (ts_last st))) |];
    destruct st; state_simpl; auto.
Qed.

(** *** The decoded steering torque *)

Lemma steer_field_range (f : CAN_FIFOMailBox_TypeDef) :
  0 <= steer_field f < 8192.
Proof.
  unfold steer_field. change 0x1FFF with (Z.ones 13).
  rewrite Z.land_ones by lia. apply Z.mod_pos_bound. lia.
Qed.

Lemma desired_torque_of_field (f : CAN_FIFOMailBox_TypeDef) :
  desired_torque_of f =
    if 4096 <=? steer_field f then 8192 - steer_field f else - steer_field f.
Proof.
  unfold desired_torque_of. fold (steer_field f). unfold to_signed.
  change (2 ^ (13 - 1)) with 4096. change (2 ^ 13) with 8192.
  destruct (4096 <=? steer_field f); lia.
Qed.

(** X12: the decoded steering torque lies in [-4095, 4096]; it is 0 only
    for the raw field 0; and it is within the absolute bound of 2047
    exactly for the raw 13-bit fields 0..2047 and 6145..8191, so every field
    from 0x0800 to 0x1800 is out of bound. *)
Theorem steer_torque_decode (f : CAN_FIFOMailBox_TypeDef) :
  -4095 <= desired_torque_of f <= 4096
  /\ (desired_torque_of f = 0 <-> steer_field f = 0)
  /\ (max_limit_check (desired_torque_of f)
        SUBARU_L_MAX_STEER (- SUBARU_L_MAX_STEER) = false
      <-> steer_field f <= 2047 \/ 6145 <= steer_field f).
Proof.
  pose proof (steer_field_range f) as Hr.
  rewrite desired_torque_of_field.
  unfold max_limit_check, SUBARU_L_MAX_STEER.
  rewrite orb_false_iff, !Z.ltb_ge.
  destruct (Z.leb_spec 4096 (steer_field f)); lia.
Qed.

(** *** Invariants along runs *)

Lemma run_cons (st : St) (ev : event) (evs : list event) :
  run st (ev :: evs) = run (step st ev) evs.
Proof. reflexivity. Qed.

(** What one received frame does to the controls pair: nothing, or, for an
    accepted cruise-status frame, the edge rule. *)
Lemma rx_controls_step (st : St) (f : CAN_FIFOMailBox_TypeDef) :
  let st' := snd (subaru_legacy_rx_hook st f) in
  (controls_allowed st' = controls_allowed st
   /\ cruise_engaged_prev st' = cruise_engaged_prev st)
  \/ (cruise_status_frame f
      /\ cruise_engaged_prev st' = cruise_engaged_of f
      /\ controls_allowed st' =
           cruise_engaged_of f
           && (negb (cruise_engaged_prev st) || controls_allowed st)).
Proof.
  intros st'. subst st'. unfold cruise_status_frame.
  destruct st as [td ca cep vm bp gp dtl rtl tsl flip a0].
  rx_cases f;
    try (left; split; reflexivity);
    right; apply Z.eqb_eq in Hbus, H144; repeat split; auto.
Qed.

Lemma rx_limiter_unchanged (st : St) (f : CAN_FIFOMailBox_TypeDef) :
  limiter (snd (subaru_legacy_rx_hook st f)) = limiter st.
Proof.
  unfold limiter. destruct st as [td ca cep vm bp gp dtl rtl tsl flip a0].
  rx_cases f; reflexivity.
Qed.

Lemma tx_controls_unchanged (st : St) (f : CAN_FIFOMailBox_TypeDef) (ts : Z) :
  controls_allowed (snd (subaru_legacy_tx_hook st f ts)) = controls_allowed st
  /\ cruise_engaged_prev (snd (subaru_legacy_tx_hook st f ts))
     = cruise_engaged_prev st.
Proof.
  rewrite tx_hook_unfold. cbv zeta.
  destruct (GET_ADDR f =? 0x164); cbn [snd]; [| split; reflexivity].
  rewrite steer_state_closed. cbv zeta. destruct st. split; reflexivity.
Qed.

(** One steering command keeps the limiter within the steering bound. *)
Lemma tx_limiter_bounded (st : St) (f : CAN_FIFOMailBox_TypeDef) (ts : Z) :
  limiter_bounded st ->
  limiter_bounded (snd (subaru_legacy_tx_hook st f ts)).
Proof.
  unfold limiter_bounded. intros [Hd Hr].
  rewrite tx_hook_unfold. cbv zeta.
  destruct (GET_ADDR f =? 0x164); cbn [snd]; [| split; assumption].
  rewrite steer_state_closed. cbv zeta. rewrite steer_violation_closed.
  destruct st as [td ca cep vm bp gp dtl rtl tsl flip a]. state_simpl.
  unfold SUBARU_L_MAX_STEER in *.
  destruct ca; cbn [andb]; [| split; lia].
  destruct (max_limit_check _ _ _) eqn:Hmax;
    cbn [orb negb]; [split; lia|].
  assert (Hb : Z.abs (desired_torque_of f) <= 2047).
  { unfold max_limit_check in Hmax.
    apply orb_false_iff in Hmax as [H1 H2].
    apply Z.ltb_ge in H1, H2. lia. }
  destruct (driver_limit_check _ _ _ _ _ _ _ _ || rt_rate_limit_check _ _ _);
    cbn [negb]; [split; lia|].
  destruct (SUBARU_L_RT_INTERVAL <? _); split; assumption.
Qed.

(** X13: along every run of receive, transmit and initialisation calls, if
    [desired_torque_last] and [rt_torque_last] start within the steering
    bound of 2047 they stay within it. *)
Theorem limiter_stays_bounded (st : St) (evs : list event) :
  limiter_bounded st -> limiter_bounded (run st evs).
Proof.
  revert st. induction evs as [| ev evs IH]; intros st Hb; [exact Hb|].
  rewrite run_cons. apply IH. destruct ev as [f | f ts | param]; cbn [step].
  - unfold limiter_bounded in *.
    pose proof (rx_limiter_unchanged st f) as Hl. unfold limiter in Hl.
    injection Hl as -> -> _. exact Hb.
  - apply tx_limiter_bounded. exact Hb.
  - destruct st. exact Hb.
Qed.

(** Controls allowed only while the last cruise-status frame seen said
    engaged: one step keeps it. *)
Lemma controls_cruise_step (st : St) (ev : event) :
  (controls_allowed st = true -> cruise_engaged_prev st = true) ->
  controls_allowed (step st ev) = true ->
  cruise_engaged_prev (step st ev) = true.
Proof.
  intros Inv. destruct ev as [f | f ts | param]; cbn [step].
  - destruct (rx_controls_step st f) as [[Hc Hp] | (_ & Hp & Hc)].
    + rewrite Hc, Hp. exact Inv.
    + rewrite Hc, Hp. intros H. apply andb_true_iff in H as [H _]. exact H.
  - destruct (tx_controls_unchanged st f ts) as [Hc Hp].
    rewrite Hc, Hp. exact Inv.
  - destruct st. cbn. discriminate.
Qed.

Lemma controls_cruise_run (st : St) (evs : list event) :
  (controls_allowed st = true -> cruise_engaged_prev st = true) ->
  controls_allowed (run st evs) = true ->
  cruise_engaged_prev (run st evs) = true.
Proof.
  revert st. induction evs as [| ev evs IH]; intros st Inv; [exact Inv|].
  rewrite run_cons. apply IH. apply controls_cruise_step. exact Inv.
Qed.

Lemma init_controls_off (st : St) (param : Z) :
  controls_allowed (snd (subaru_legacy_init st param)) = false.
Proof. destruct st. reflexivity. Qed.

(** X14: from initialisation on, whatever frames are received and
    transmitted and however often the module is re-initialised,
    [controls_allowed] is true only while [cruise_engaged_prev] is: controls
    are never allowed when the last accepted cruise-status frame said "not
    engaged". *)
Theorem controls_allowed_implies_cruise_engaged
    (st : St) (param : Z) (evs : list event) :
  controls_allowed (run (snd (subaru_legacy_init st param)) evs) = true ->
  cruise_engaged_prev (run (snd (subaru_legacy_init st param)) evs) = true.
Proof.
  apply controls_cruise_run. rewrite init_controls_off. discriminate.
Qed.

(** X15: controls can only be switched on by the receive hook seeing a
    bus-0 cruise-status frame with the engaged bit set: a run that starts
    with controls not allowed and ends with controls allowed contains such a
    frame. *)
Theorem controls_enabled_only_by_cruise_frame (st : St) (evs : list event) :
  controls_allowed st = false ->
  controls_allowed (run st evs) = true ->
  exists f, In (EvRx f) evs
            /\ cruise_status_frame f /\ cruise_engaged_of f = true.
Proof.
  revert st. induction evs as [| ev evs IH]; intros st Hoff Hon.
  - cbn in Hon. congruence.
  - rewrite run_cons in Hon.
    destruct (controls_allowed (step st ev)) eqn:Hstep.
    + assert (Hev : exists f, ev = EvRx f /\ cruise_status_frame f
                              /\ cruise_engaged_of f = true).
      { destruct ev as [f | f ts | param]; cbn [step] in Hstep.
        - destruct (rx_controls_step st f) as [[Hc _] | (Hf & _ & Hc)].
          + congruence.
          + rewrite Hc in Hstep. apply andb_true_iff in Hstep as [He _].
            exists f. auto.
        - destruct (tx_controls_unchanged st f ts) as [Hc _]. congruence.
        - rewrite init_controls_off in Hstep. discriminate. }
      destruct Hev as (f & -> & Hf & He).
      exists f. split; [left; reflexivity | auto].
    + destruct (IH _ Hstep Hon) as (f & Hin & Hf & He).
      exists f. split; [right; exact Hin | auto].
Qed.

(** X16: in every state reached from initialisation, a steering command
    that carries a nonzero torque and is let through finds controls allowed
    and the last cruise-status frame engaged, and its torque is within the
    absolute bound. *)
Theorem accepted_torque_needs_engaged_cruise
    (st : St) (param : Z) (evs : list event)
    (f : CAN_FIFOMailBox_TypeDef) (ts : Z) :
  let s := run (snd (subaru_legacy_init st param)) evs in
  GET_ADDR f = 0x164 ->
  desired_torque_of f <> 0 ->
  fst (subaru_legacy_tx_hook s f ts) = 1 ->
  controls_allowed s = true
  /\ cruise_engaged_prev s = true
  /\ Z.abs (desired_torque_of f) <= SUBARU_L_MAX_STEER.
Proof.
  intros s Ha Hnz Hv.
  apply tx_accept_gate in Hv as (_ & _ & Hflag). specialize (Hflag Ha).
  rewrite steer_violation_closed in Hflag.
  destruct (controls_allowed s) eqn:Hca.
  - split; [reflexivity|]. split.
    + subst s. apply controls_cruise_run; [| exact Hca].
      rewrite init_controls_off. discriminate.
    + apply orb_false_iff in Hflag as [Hflag _].
      apply orb_false_iff in Hflag as [Hmax _].
      unfold max_limit_check in Hmax.
      apply orb_false_iff in Hmax as [H1 H2].
      apply Z.ltb_ge in H1, H2. unfold SUBARU_L_MAX_STEER in *. lia.
  - apply negb_false_iff, Z.eqb_eq in Hflag. contradiction.
Qed.

(** *** Forwarding hook *)

(** Turns the tests of the forwarding hook into (in)equalities. *)
Ltac fwd_cases st bus_num f :=
  unfold subaru_legacy_fwd_hook;
  destruct (relay_malfunction (amb st)); cbn [negb];
  destruct (Z.eqb_spec bus_num 0); destruct (Z.eqb_spec bus_num 2);
  destruct (Z.eqb_spec (GET_ADDR f) 0x140);
  destruct (Z.eqb_spec (GET_ADDR f) 0x161);
  destruct (Z.eqb_spec (GET_ADDR f) 0x164);
  cbn [negb orb].

(** X17: the forwarding hook never forwards onto a bus a frame whose
    address the transmit allow-list reserves for that bus: 0x161 and 0x164
    are never forwarded to bus 0, 0x140 never to bus 2, from whichever bus
    they arrive. *)
Theorem fwd_never_collides_with_tx
    (st : St) (bus_num : Z) (f : CAN_FIFOMailBox_TypeDef) (m : CanMsg) :
  In m SUBARU_L_TX_MSGS ->
  GET_ADDR f = m_addr m ->
  subaru_legacy_fwd_hook st bus_num f <> m_bus m.
Proof.
  intros Hin Ha. unfold SUBARU_L_TX_MSGS in Hin. cbn [In] in Hin.
  destruct Hin as [<- | [<- | [<- | []]]]; cbn [m_addr m_bus] in *;
    fwd_cases st bus_num f; try discriminate; congruence.
Qed.

(** X18: the forwarding hook answers -1, 0 or 2 only; a frame it forwards
    always changes bus, 2 being answered only for bus 0 and 0 only for bus
    2; and its answer depends on the frame through the address alone. *)
Theorem fwd_targets
    (st : St) (bus_num : Z) (f g : CAN_FIFOMailBox_TypeDef) :
  (subaru_legacy_fwd_hook st bus_num f = -1
   \/ subaru_legacy_fwd_hook st bus_num f = 0
   \/ subaru_legacy_fwd_hook st bus_num f = 2)
  /\ (subaru_legacy_fwd_hook st bus_num f <> -1 ->
      subaru_legacy_fwd_hook st bus_num f <> bus_num)
  /\ (subaru_legacy_fwd_hook st bus_num f = 2 -> bus_num = 0)
  /\ (subaru_legacy_fwd_hook st bus_num f = 0 -> bus_num = 2)
  /\ (GET_ADDR f = GET_ADDR g ->
      subaru_legacy_fwd_hook st bus_num f
      = subaru_legacy_fwd_hook st bus_num g).
Proof.
  split; [| split; [| split; [| split]]].
  - fwd_cases st bus_num f; auto.
  - fwd_cases st bus_num f; intros; try contradiction; lia.
  - fwd_cases st bus_num f; intros; try discriminate; lia.
  - fwd_cases st bus_num f; intros; try discriminate; lia.
  - intros Ha. unfold subaru_legacy_fwd_hook. rewrite Ha. reflexivity.
Qed.

(** *** Initialisation *)

Lemma GET_FLAG_bit0 (param : Z) :
  GET_FLAG param SUBARU_L_PARAM_FLIP_DRIVER_TORQUE = Z.odd param.
Proof.
  unfold GET_FLAG, SUBARU_L_PARAM_FLIP_DRIVER_TORQUE.
  change 1 with (Z.ones 1) at 1. rewrite Z.land_ones by lia.
  change (2 ^ 1) with 2. rewrite Zmod_odd.
  destruct (Z.odd param); reflexivity.
Qed.

(** X19: initialisation returns the three-entry address-check table,
    switches controls off, resets the relay latch and sets the flip flag to
    bit 0 of the parameter; it leaves the driver-torque sample,
    [cruise_engaged_prev], the motion flags and the limiter as they were.
    Calling it again overrides the first call: the module variables are
    those of the last call alone. *)
Theorem init_effect (st : St) (param param' : Z) :
  let st' := snd (subaru_legacy_init st param) in
  fst (subaru_legacy_init st param) = subaru_l_addr_checks
  /\ controls_allowed st' = false
  /\ subaru_l_flip_driver_torque st' = Z.odd param
  /\ amb st' = relay_malfunction_reset (amb st)
  /\ torque_driver st' = torque_driver st
  /\ cruise_engaged_prev st' = cruise_engaged_prev st
  /\ vehicle_moving st' = vehicle_moving st
  /\ brake_pressed st' = brake_pressed st
  /\ gas_pressed st' = gas_pressed st
  /\ limiter st' = limiter st
  /\ same_module_state
       (snd (subaru_legacy_init (snd (subaru_legacy_init st param')) param))
       st'.
Proof.
  intros st'. subst st'. unfold subaru_legacy_init, same_module_state, limiter.
  destruct st. state_simpl. rewrite GET_FLAG_bit0.
  repeat split; reflexivity.
Qed.

(** X20: re-initialising while cruise is engaged does not hand controls
    back: [cruise_engaged_prev] survives initialisation, so the next
    accepted cruise-status frame that still says "engaged" is no rising edge
    and controls stay off. *)
Theorem init_needs_fresh_rising_edge
    (st : St) (param : Z) (c : CAN_FIFOMailBox_TypeDef) :
  cruise_engaged_prev st = true ->
  cruise_status_frame c ->
  cruise_engaged_of c = true ->
  controls_allowed
    (snd (subaru_legacy_rx_hook (snd (subaru_legacy_init st param)) c))
  = false.
Proof.
  intros Hp Hc He.
  set (s := snd (subaru_legacy_init st param)).
  assert (Hs : controls_allowed s = false /\ cruise_engaged_prev s = true).
  { subst s. destruct st. cbn in Hp. subst. split; reflexivity. }
  destruct Hs as [Hsc Hsp].
  destruct (rx_controls_step s c) as [[Hc' _] | (_ & _ & Hc')].
  - rewrite Hc'. exact Hsc.
  - rewrite Hc', He, Hsp, Hsc. reflexivity.
Qed.

(** *** Consecutive steering commands *)

Lemma rx_run_limiter (st : St) (frames : list CAN_FIFOMailBox_TypeDef) :
  limiter (rx_run st frames) = limiter st.
Proof.
  revert st. induction frames as [| f frames IH]; intros st; cbn [rx_run].
  - reflexivity.
  - rewrite IH. apply rx_limiter_unchanged.
Qed.

(** X21: the rate check of a steering command is made against the previous
    steering command: if that one was sent with controls allowed and raised
    no violation, against its torque, otherwise against 0.  So a command let
    through with controls allowed has passed [driver_limit_check] relative
    to that value, with the driver torque as it is after the frames received
    in between. *)
Theorem rate_check_against_previous_command
    (st : St) (f1 f2 : CAN_FIFOMailBox_TypeDef) (ts1 ts2 : Z)
    (frames : list CAN_FIFOMailBox_TypeDef) :
  let s2 := rx_run (snd (subaru_legacy_tx_hook st f1 ts1)) frames in
  GET_ADDR f1 = 0x164 ->
  GET_ADDR f2 = 0x164 ->
  controls_allowed s2 = true ->
  fst (subaru_legacy_tx_hook s2 f2 ts2) = 1 ->
  driver_limit_check (desired_torque_of f2)
    (if controls_allowed st && negb (fst (steer_cmd_checks st f1 ts1))
     then desired_torque_of f1 else 0)
    (torque_driver s2) SUBARU_L_MAX_STEER SUBARU_L_MAX_RATE_UP
    SUBARU_L_MAX_RATE_DOWN SUBARU_L_DRIVER_TORQUE_ALLOWANCE
    SUBARU_L_DRIVER_TORQUE_FACTOR = false.
Proof.
  intros s2 Ha1 Ha2 Hca Hv.
  apply tx_accept_gate in Hv as (_ & _ & Hflag). specialize (Hflag Ha2).
  rewrite steer_violation_closed, Hca in Hflag.
  apply orb_false_iff in Hflag as [Hflag _].
  apply orb_false_iff in Hflag as [_ Hdrv].
  assert (Hlast : desired_torque_last s2 =
    if controls_allowed st && negb (fst (steer_cmd_checks st f1 ts1))
    then desired_torque_of f1 else 0).
  { pose proof (rx_run_limiter (snd (subaru_legacy_tx_hook st f1 ts1)) frames)
      as Hl.
    fold s2 in Hl. unfold limiter in Hl. injection Hl as -> _ _.
    rewrite tx_hook_unfold. cbv zeta. rewrite Ha1. cbn [Z.eqb Pos.eqb snd].
    rewrite steer_state_closed. cbv zeta. destruct st. reflexivity. }
  rewrite <- Hlast. exact Hdrv.
Qed.

End Behaviour.

(** ** The further behaviour at concrete frames *)

Lemma rx_wheel_speed_threshold_witness :
  vehicle_moving (snd (subaru_legacy_rx_hook ref_init (wheel_frame 21 21)))
  = true
  /\ vehicle_moving (snd (subaru_legacy_rx_hook ref_init (wheel_frame 20 21)))
     = false.
Proof.
  split.
  - destruct (rx_wheel_speed_threshold ref_init (wheel_frame 21 21))
      as [Hm _]; [reflexivity .. |]. rewrite Hm. reflexivity.
  - destruct (rx_wheel_speed_threshold ref_init (wheel_frame 20 21))
      as [Hm _]; [reflexivity .. |]. rewrite Hm. reflexivity.
Defined.

Lemma rx_writes_by_address_witness :
  torque_driver (snd (subaru_legacy_rx_hook ref_engaged (cruise_frame 0))) = 0
  /\ controls_allowed
       (snd (subaru_legacy_rx_hook ref_engaged (wheel_frame 21 21))) = true.
Proof.
  split.
  - destruct (rx_writes_by_address ref_engaged (cruise_frame 0))
      as (_ & _ & Htd & _). apply Htd. discriminate.
  - destruct (rx_writes_by_address ref_engaged (wheel_frame 21 21))
      as (_ & _ & _ & Hc & _). apply Hc. discriminate.
Defined.

Lemma rx_ignores_other_buses_witness :
  cruise_engaged_of cruise_frame_bus2 = true
  /\ same_module_state
       (snd (subaru_legacy_rx_hook ref_init cruise_frame_bus2)) ref_init.
Proof.
  split; [reflexivity|].
  apply (rx_ignores_other_buses ref_init cruise_frame_bus2). discriminate.
Defined.

Lemma rx_unknown_address_witness :
  same_module_state (snd (subaru_legacy_rx_hook ref_engaged steer_m1))
                    ref_engaged.
Proof.
  apply (rx_unknown_address ref_engaged steer_m1);
    [reflexivity | reflexivity | discriminate ..].
Defined.

Lemma tx_writes_limiter_only_witness :
  snd (subaru_legacy_tx_hook ref_init cruise_throttle_cmd 1000) = ref_init.
Proof.
  destruct (tx_writes_limiter_only ref_init cruise_throttle_cmd 1000)
    as (_ & _ & _ & _ & _ & _ & _ & _ & Hsame).
  apply Hsame. discriminate.
Defined.

Lemma tx_verdict_characterised_witness :
  fst (subaru_legacy_tx_hook ref_engaged steer_m1 1000) = 1.
Proof.
  destruct (tx_verdict_characterised ref_engaged steer_m1 1000)
    as (_ & _ & Hyes).
  apply Hyes. repeat split; reflexivity.
Defined.

Lemma tx_accepts_listed_frames_only_witness :
  (GET_ADDR steer_m1 = 0x161 /\ GET_BUS steer_m1 = 0 /\ GET_LEN steer_m1 = 8)
  \/ (GET_ADDR steer_m1 = 0x164 /\ GET_BUS steer_m1 = 0
      /\ GET_LEN steer_m1 = 8)
  \/ (GET_ADDR steer_m1 = 0x140 /\ GET_BUS steer_m1 = 2
      /\ GET_LEN steer_m1 = 8).
Proof.
  apply (tx_accepts_listed_frames_only ref_engaged steer_m1 1000).
  reflexivity.
Defined.

Lemma tx_passes_throttle_frames_witness :
  subaru_legacy_tx_hook ref_init cruise_throttle_cmd 1000 = (1, ref_init)
  /\ subaru_legacy_tx_hook ref_engaged_fault throttle_cmd 1000
     = (0, ref_engaged_fault).
Proof.
  split.
  - rewrite (tx_passes_throttle_frames ref_init cruise_throttle_cmd 1000);
      [reflexivity | left; split; reflexivity | reflexivity].
  - rewrite (tx_passes_throttle_frames ref_engaged_fault throttle_cmd 1000);
      [reflexivity | right; split; reflexivity | reflexivity].
Defined.

Lemma tx_zero_torque_without_controls_witness :
  fst (subaru_legacy_tx_hook ref_init steer_zero 1000) = 1
  /\ limiter (snd (subaru_legacy_tx_hook ref_init steer_zero 1000))
     = (0, 0, 1000).
Proof.
  apply (tx_zero_torque_without_controls ref_init steer_zero 1000);
    reflexivity.
Defined.

Lemma tx_keeps_anchor_within_window_witness :
  limiter (snd (subaru_legacy_tx_hook ref_engaged steer_m1 250000))
  = (-1, 0, 0).
Proof.
  apply (tx_keeps_anchor_within_window ref_engaged steer_m1 250000);
    [reflexivity | reflexivity | reflexivity | discriminate].
Defined.

Lemma tx_anchor_never_stale_witness :
  get_ts_elapsed 300000
    (ts_last (snd (subaru_legacy_tx_hook ref_engaged steer_m1 300000)))
  <= SUBARU_L_RT_INTERVAL.
Proof.
  apply (tx_anchor_never_stale ref_engaged steer_m1 300000). reflexivity.
Defined.

Lemma steer_torque_decode_witness :
  steer_field steer_m2048 = 2048
  /\ max_limit_check (desired_torque_of steer_m2048)
       SUBARU_L_MAX_STEER (- SUBARU_L_MAX_STEER) <> false.
Proof.
  split; [reflexivity|].
  destruct (steer_torque_decode steer_m2048) as (_ & _ & Hb).
  intros Hf. apply Hb in Hf. cbv in Hf.
  destruct Hf as [Hf | Hf]; apply Hf; reflexivity.
Defined.

Lemma limiter_stays_bounded_witness :
  limiter_bounded
    (run ref_engaged
       [EvTx steer_m1 1000; EvRx (cruise_frame 2); EvTx steer_m2 300000;
        EvTx steer_m2048 300500]).
Proof.
  apply (limiter_stays_bounded ref_engaged).
  unfold limiter_bounded. split; discriminate.
Defined.

Lemma controls_allowed_implies_cruise_engaged_witness :
  cruise_engaged_prev
    (run (snd (subaru_legacy_init ref_engaged_fault 0)) engage_events) = true.
Proof.
  apply (controls_allowed_implies_cruise_engaged ref_engaged_fault 0
           engage_events).
  reflexivity.
Defined.

Lemma controls_enabled_only_by_cruise_frame_witness :
  exists f, In (EvRx f) engage_events
            /\ cruise_status_frame f /\ cruise_engaged_of f = true.
Proof.
  apply (controls_enabled_only_by_cruise_frame ref_init engage_events);
    reflexivity.
Defined.

Lemma accepted_torque_needs_engaged_cruise_witness :
  controls_allowed (run (snd (subaru_legacy_init ref_init 0)) engage_events)
  = true
  /\ cruise_engaged_prev
       (run (snd (subaru_legacy_init ref_init 0)) engage_events) = true
  /\ Z.abs (desired_torque_of steer_m1) <= SUBARU_L_MAX_STEER.
Proof.
  apply (accepted_torque_needs_engaged_cruise ref_init 0 engage_events
           steer_m1 1000);
    [reflexivity | discriminate | reflexivity].
Defined.

Lemma fwd_never_collides_with_tx_witness :
  subaru_legacy_fwd_hook ref_engaged 2 steer_m1 <> 0
  /\ subaru_legacy_fwd_hook ref_engaged 0 throttle_cmd <> 2.
Proof.
  split.
  - apply (fwd_never_collides_with_tx ref_engaged 2 steer_m1
             (mkCanMsg 0x164 0 8)); [right; left; reflexivity | reflexivity].
  - apply (fwd_never_collides_with_tx ref_engaged 0 throttle_cmd
             (mkCanMsg 0x140 2 8));
      [right; right; left; reflexivity | reflexivity].
Defined.

Lemma fwd_targets_witness :
  subaru_legacy_fwd_hook ref_engaged 0 steer_m1
  = subaru_legacy_fwd_hook ref_engaged 0 steer_m2048
  /\ subaru_legacy_fwd_hook ref_engaged 0 steer_m1 <> 0.
Proof.
  destruct (fwd_targets ref_engaged 0 steer_m1 steer_m2048)
    as (_ & Hchg & _ & _ & Haddr).
  split; [apply Haddr; reflexivity | apply Hchg; discriminate].
Defined.

Lemma init_needs_fresh_rising_edge_witness :
  controls_allowed
    (snd (subaru_legacy_rx_hook (snd (subaru_legacy_init ref_engaged 1))
            (cruise_frame 2)))
  = false.
Proof.
  apply (init_needs_fresh_rising_edge ref_engaged 1 (cruise_frame 2));
    [reflexivity | split; reflexivity | reflexivity].
Defined.

Lemma rate_check_against_previous_command_witness :
  driver_limit_check (desired_torque_of steer_m2) (desired_torque_of steer_m1)
    (torque_driver
       (rx_run (snd (subaru_legacy_tx_hook ref_engaged steer_m1 1000))
               [driver_torque_frame 0x20 0]))
    SUBARU_L_MAX_STEER SUBARU_L_MAX_RATE_UP SUBARU_L_MAX_RATE_DOWN
    SUBARU_L_DRIVER_TORQUE_ALLOWANCE SUBARU_L_DRIVER_TORQUE_FACTOR = false.
Proof.
  pose proof (rate_check_against_previous_command ref_engaged steer_m1
                steer_m2 1000 2000 [driver_torque_frame 0x20 0]) as Hrate.
  apply Hrate; reflexivity.
Defined.
